(** * Squirrel: the [view] package (progress reporter and report writers)

    A shallow embedding of [view/view.go] and the properties of its
    progress reporter and of its CSV, spreadsheet and HTML writers. *)

From Stdlib Require Import ZArith List String Ascii Bool Lia Permutation.
From Stdlib Require Import DecimalString.
Import ListNotations.

Local Open Scope Z_scope.

(** ** Go values *)

(** A [w]-bit signed integer is a [Z]; a conversion to that width keeps the
    low [w] bits and reads them in two's complement. *)
Definition wrap (w : Z) (x : Z) : Z :=
  (x + 2 ^ (w - 1)) mod 2 ^ w - 2 ^ (w - 1).

(** [int32(x)] *)
Definition int32 (x : Z) : Z := wrap 32 x.

(** [int(x)] on a 64-bit platform; also the result of [x++] on an [int]. *)
Definition int64 (x : Z) : Z := wrap 64 x.

Definition in_int32 (x : Z) : Prop := - 2 ^ 31 <= x < 2 ^ 31.

Definition MaxInt : Z := 2 ^ 63 - 1.

(** A Go string is a sequence of bytes, as is [string]. *)
Definition nonempty (s : string) : bool :=
  match s with EmptyString => false | _ => true end.

(** [%d] *)
Definition itoa (n : Z) : string := NilZero.string_of_int (Z.to_int n).

(** [strings.ReplaceAll(s, old, new)] where [old] and [new] are one byte
    each, which is how the package calls it. *)
Fixpoint ReplaceAll (s : string) (old new : ascii) : string :=
  match s with
  | EmptyString => EmptyString
  | String c s' =>
      String (if Ascii.eqb c old then new else c) (ReplaceAll s' old new)
  end.

(** [strings.HasPrefix(s, p)] *)
Definition HasPrefix (s p : string) : bool := String.prefix p s.

(** A Go [error]; [None] is [nil]. *)
Definition error : Type := option string.

(** ** The progress reporter: [ShowProgress] *)

Module Progress.

(** What the goroutine does, in program order. *)
Inductive effect : Type :=
| LoadInt32 (v : Z)                  (* atomic.LoadInt32(processed) gave v *)
| Float64Div (num den : Z)           (* float64(current) / float64(totalDomains) *)
| Printf (current totalDomains : Z)  (* the progress line *)
| TickerStop                         (* deferred ticker.Stop() *)
| CloseProgressDone.                 (* deferred close(progressDone) *)

Record goroutine : Type := {
  running : bool;
  effects : list effect
}.

(** The shared counter [*processed] and the reporter next to it. *)
Record world : Type := {
  processed : Z;
  reporter : goroutine
}.

(** One scheduling step: the [select] takes one of its two cases, or a probe
    task outside the goroutine adds to the counter. *)
Inductive event : Type :=
| TickerC                  (* case <-ticker.C *)
| DoneChan                 (* case <-doneChan *)
| AtomicAddInt32 (d : Z).  (* atomic.AddInt32(processed, d), by a probe task *)

(** [return], with the two deferred calls in the order Go runs them. *)
Definition ret (g : goroutine) : goroutine :=
  {| running := false;
     effects := effects g ++ [TickerStop; CloseProgressDone] |}.

Definition emit (g : goroutine) (es : list effect) : goroutine :=
  {| running := running g; effects := effects g ++ es |}.

(** The body of [case <-ticker.C]. *)
Definition on_tick (totalDomains : Z) (counter : Z) (g : goroutine) : goroutine :=
  let current := counter in
  let g := emit g [LoadInt32 current] in
  if int32 totalDomains <=? current then ret g
  else emit g [Float64Div current totalDomains; Printf current totalDomains].

Definition step (totalDomains : Z) (w : world) (ev : event) : world :=
  match ev with
  | AtomicAddInt32 d =>
      {| processed := int32 (processed w + d); reporter := reporter w |}
  | TickerC =>
      if running (reporter w)
      then {| processed := processed w;
              reporter := on_tick totalDomains (processed w) (reporter w) |}
      else w
  | DoneChan =>
      if running (reporter w)
      then {| processed := processed w; reporter := ret (reporter w) |}
      else w
  end.

Definition run (totalDomains : Z) (tr : list event) (w : world) : world :=
  fold_left (step totalDomains) tr w.

(** [ShowProgress] starts the goroutine and returns; [counter] is what
    [*processed] holds at that moment. The elapsed time of a progress line
    is a reading of the clock and is left out of [Printf]. *)
Definition ShowProgress (counter : Z) : world :=
  {| processed := counter; reporter := {| running := true; effects := [] |} |}.

Definition is_print (e : effect) : bool :=
  match e with Printf _ _ => true | _ => false end.

Definition is_div (e : effect) : bool :=
  match e with Float64Div _ _ => true | _ => false end.

(** The progress lines printed so far. *)
Definition printed (w : world) : list effect :=
  filter is_print (effects (reporter w)).

Definition is_wakeup (ev : event) : bool :=
  match ev with TickerC | DoneChan => true | AtomicAddInt32 _ => false end.

(** The event after which the reporter has to be gone: the stop signal, or a
    tick at which the counter has reached the total. *)
Definition terminating (totalDomains : Z) (w : world) (ev : event) : bool :=
  match ev with
  | DoneChan => true
  | TickerC => totalDomains <=? processed w
  | AtomicAddInt32 _ => false
  end.

(** The counter as the probe tasks alone leave it. *)
Fixpoint counter_of_tasks (tr : list event) (c : Z) : Z :=
  match tr with
  | [] => c
  | AtomicAddInt32 d :: tr' => counter_of_tasks tr' (int32 (c + d))
  | _ :: tr' => counter_of_tasks tr' c
  end.

(** No event of the trace is a terminating one. *)
Fixpoint undisturbed (totalDomains : Z) (tr : list event) (w : world) : bool :=
  match tr with
  | [] => true
  | ev :: tr' =>
      negb (terminating totalDomains w ev) &&
      undisturbed totalDomains tr' (step totalDomains w ev)
  end.

(** The progress lines of a trace: one for each tick, with the counter as
    the tick finds it. *)
Fixpoint lines_of (totalDomains : Z) (tr : list event) (c : Z) : list effect :=
  match tr with
  | [] => []
  | TickerC :: tr' => Printf c totalDomains :: lines_of totalDomains tr' c
  | DoneChan :: tr' => lines_of totalDomains tr' c
  | AtomicAddInt32 d :: tr' => lines_of totalDomains tr' (int32 (c + d))
  end.


(** The two deferred calls of the goroutine. *)
Definition is_deferred (e : effect) : bool :=
  match e with TickerStop | CloseProgressDone => true | _ => false end.

(** What a progress line or a division of the goroutine is bound by: its
    [current] lies below [int32(totalDomains)]. *)
Definition below_total (totalDomains : Z) (e : effect) : Prop :=
  match e with
  | Printf current t => t = totalDomains /\ current < int32 totalDomains
  | Float64Div num den => den = totalDomains /\ num < int32 totalDomains
  | _ => True
  end.
(** The shape of the goroutine's log: what it did while running, then the
    deferred calls if it has returned. *)
Definition well_ended (g : goroutine) : Prop :=
  exists body,
    effects g =
      body ++ (if running g then [] else [TickerStop; CloseProgressDone]) /\
    Forall (fun e => is_deferred e = false) body.

End Progress.

(** ** The [checker] package's result type *)

Module checker.

(** Modelled from the spec: the [checker] package declares [PageInfo], which
    the spec gives a coarse classification string [Type] and an extracted
    [Title]. *)
Record PageInfoT : Type := {
  pi_Type : string;
  pi_Title : string
}.

(** Modelled from the spec: the [checker] package declares [Result]; these
    are the fields the spec lists and [view.go] reads. [ResponseTime] is a
    [time.Duration], a count of nanoseconds; [PageInfo] is a pointer that
    may be nil. *)
Record Result : Type := {
  Domain : string;
  Alive : bool;
  Status : Z;
  StatusText : string;
  ResponseTime : Z;
  PageInfo : option PageInfoT;
  Title : string;
  Message : string;
  Screenshot : string
}.

(** [d.Milliseconds()] *)
Definition Milliseconds (d : Z) : Z := Z.quot d 1000000.

End checker.

(** ** Faults *)

(** A computation that may panic. *)
Inductive fault (A : Type) : Type :=
| Ok (a : A)
| Panic (msg : string).

Arguments Ok {A} a.
Arguments Panic {A} msg.

Definition bind {A B : Type} (c : fault A) (k : A -> fault B) : fault B :=
  match c with
  | Ok a => k a
  | Panic msg => Panic msg
  end.

Notation "x <- c1 ;; c2" := (bind c1 (fun x => c2))
  (at level 61, c1 at next level, right associativity).

(** [*p]: reading through a nil pointer panics. *)
Definition deref {A : Type} (p : option A) : fault A :=
  match p with
  | Some a => Ok a
  | None => Panic "invalid memory address or nil pointer dereference"
  end.

Definition is_nil {A : Type} (p : option A) : bool :=
  match p with Some _ => false | None => true end.

(** ** The report writers *)

Module view.
Import checker.

Local Open Scope string_scope.

Definition nl : string := String (ascii_of_nat 10) EmptyString.

Record TemplateResult : Type := {
  tr_Domain : string;
  tr_DomainLink : string;
  tr_StatusClass : string;
  tr_DomainStatus : string;
  tr_StatusText : string;
  tr_Status : Z;
  (** the duration [d] whose [d.Seconds() * 1000] the field holds *)
  tr_ResponseTime : Z;
  tr_PageType : string;
  tr_Title : string;
  tr_Message : string;
  tr_Screenshot : string;
  tr_Alive : bool
}.

Record TemplateData : Type := {
  TotalDomains : Z;
  AliveDomains : Z;
  DeadDomains : Z;
  ReportTime : string;
  Results : list TemplateResult
}.

(** What the package takes from the operating system and from its
    libraries. *)
Class Platform : Type := {
  os_Create : string -> error;
  os_MkdirAll : string -> error;
  os_ReadFile : string -> option string;
  (** [os.Stat(p)] returned no error *)
  os_Stat : string -> bool;
  filepath_Dir : string -> string;
  filepath_Base : string -> string;
  filepath_Join : string -> string -> string;
  filepath_Ext : string -> string;
  strings_ToLower : string -> string;
  base64_EncodeToString : string -> string;
  utf8_ValidString : string -> bool;
  (** [io.ReadAll] over the GBK decoder: the bytes read, or an error *)
  GBK_decode : string -> option string;
  (** [time.Now().Format("2006-01-02 15:04:05")] *)
  time_Now : string;
  template_ParseFiles : string -> error;
  (** [tmpl.Execute(file, data)]: what it wrote, and its error *)
  template_Execute : TemplateData -> string * error;
  excelize_AddPicture : string -> string -> string -> error;
  excelize_SaveAs : string -> error;
  excelize_Close : error
}.

Section Writers.
Context {P : Platform}.

Definition screenshotToDataURI (screenshotPath : string) : string :=
  if negb (nonempty screenshotPath) then ""
  else
    let read :=
      match os_ReadFile screenshotPath with
      | Some data => Some data
      | None => os_ReadFile (filepath_Join "." screenshotPath)
      end in
    match read with
    | None => ""
    | Some data =>
        let encoded := base64_EncodeToString data in
        let ext := strings_ToLower (filepath_Ext screenshotPath) in
        let mimeType :=
          if ext =? ".png" then "image/png"
          else if ext =? ".gif" then "image/gif"
          else if ext =? ".webp" then "image/webp"
          else "image/jpeg" in
        "data:" ++ mimeType ++ ";base64," ++ encoded
    end.

(** [pageType := dflt; if result.PageInfo != nil { pageType = result.PageInfo.Type }] *)
Definition pageTypeOf (dflt : string) (result : Result) : fault string :=
  let pageType := dflt in
  if negb (is_nil (PageInfo result))
  then pi <- deref (PageInfo result) ;; Ok (pi_Type pi)
  else Ok pageType.

(** [%.2f] of [float64(ms)] for an integer [ms]: a [time.Duration] has
    fewer than 2^53 milliseconds, so the conversion is exact. *)
Definition fmt_2f (ms : Z) : string := itoa ms ++ ".00".

Definition csv_header : string :=
  "域名,状态,状态码,响应时间(毫秒),页面类型,页面标题,消息" ++ nl.

(** One [fmt.Fprintf(file, "%s,%s,%d,%.2f,%s,%s,%s\n", ...)]. *)
Definition csv_row (result : Result) : fault string :=
  pageType <- pageTypeOf "" result ;;
  Ok (Domain result ++ "," ++
      StatusText result ++ "," ++
      itoa (Status result) ++ "," ++
      fmt_2f (Milliseconds (ResponseTime result)) ++ "," ++
      pageType ++ "," ++
      ReplaceAll (Title result) "," " " ++ "," ++
      ReplaceAll (Message result) "," " " ++ nl).

(** The data loop of [SaveResultsToFile]; [file] is what has been written. *)
Fixpoint csv_rows (results : list Result) (file : list string)
  : fault (list string) :=
  match results with
  | [] => Ok file
  | result :: rest =>
      line <- csv_row result ;;
      csv_rows rest (file ++ [line])
  end.

(** The returned error, and the writes to the created file if there is
    one. *)
Definition SaveResultsToFile (results : list Result) (filename : string)
  : fault (error * option (list string)) :=
  match os_Create filename with
  | Some err => Ok (Some err, None)
  | None =>
      file <- csv_rows results [csv_header] ;;
      Ok (None, Some file)
  end.

(** The title handling of the spreadsheet and HTML writers. *)
Definition decodeTitle (title : string) : string :=
  if nonempty title then
    if negb (utf8_ValidString title) then
      match GBK_decode title with
      | Some d => d
      | None => title
      end
    else title
  else title.

Definition domainLinkOf (domain : string) : string :=
  let domainLink := domain in
  if negb (HasPrefix domainLink "http://") && negb (HasPrefix domainLink "https://")
  then "http://" ++ domainLink
  else domainLink.

Definition statusClassOf (alive : bool) : string :=
  if alive then "status-alive" else "status-dead".

(** ** [SaveResultsToExcel] *)

(** The three styles the writer registers with [f.NewStyle]. *)
Inductive style : Type := headerStyle | contentStyle | linkStyle.

Inductive cell_value : Type :=
| VString (s : string)
| VInt (n : Z)
| VFloat64 (n : Z).   (* float64(n) for an integer n *)

(** The calls on the [excelize] file, as the writer makes them. A style is
    named by its role; the options of [SetPanes] and [AddPicture] are the
    same at every call and are left out. *)
Inductive xl_call : Type :=
| SetSheetName (source target : string)
| NewSheet (sheet : string)
| NewStyle (st : style)
| SetCellValue (sheet cell : string) (v : cell_value)
| SetCellStyle (sheet hCell vCell : string) (st : style)
| SetCellHyperLink (sheet cell link linkType : string)
| SetRowHeight (sheet : string) (row height : Z)
| AddPicture (sheet cell name : string)
| SetColWidth (sheet startCol endCol : string) (width : Z)
| SetPanes (sheet : string)
| SaveAs (name : string)
| Close.

Definition sheetName : string := "子域名检测结果".
Definition screenshotSheet : string := "页面截图".
Definition headers : list string :=
  ["域名"; "状态"; "状态码"; "响应时间(毫秒)"; "页面类型"; "页面标题"; "消息"; "截图"].

(** [excelize.ColumnNumberToName(n)] for the columns 1 to 26. *)
Definition ColumnNumberToName (n : nat) : string :=
  String (ascii_of_nat (64 + n)) EmptyString.

(** [excelize.CoordinatesToCellName(col, row)] *)
Definition CoordinatesToCellName (col : nat) (row : Z) : string :=
  ColumnNumberToName col ++ itoa row.

(** [fmt.Sprintf("X%d", row)] *)
Definition cell (col : string) (row : Z) : string := col ++ itoa row.

(** The local variables of the writer that change as it runs: the calls made
    on [f], the lines printed, the two row cursors and [data]. *)
Record xl_state : Type := {
  xl_f : list xl_call;
  xl_stdout : list string;
  xl_row : Z;
  xl_screenshotRow : Z;
  xl_data : TemplateData
}.

(** Everything up to the data loop. *)
Definition excel_prologue (results : list Result) : xl_state :=
  {| xl_f :=
       [SetSheetName "Sheet1" sheetName] ++
       map (fun ih => SetCellValue sheetName
                        (CoordinatesToCellName (fst ih + 1) 1) (VString (snd ih)))
           (combine (seq 0 (List.length headers)) headers) ++
       [NewSheet screenshotSheet;
        SetCellValue screenshotSheet "A1" (VString "域名");
        SetCellValue screenshotSheet "B1" (VString "截图");
        NewStyle headerStyle;
        SetCellStyle sheetName "A1"
          (String (ascii_of_nat (65 + List.length headers - 1)) "1") headerStyle;
        SetCellStyle screenshotSheet "A1" "B1" headerStyle];
     xl_stdout := [];
     xl_row := 2;
     xl_screenshotRow := 2;
     xl_data :=
       {| TotalDomains := Z.of_nat (List.length results);
          AliveDomains := 0;
          DeadDomains := 0;
          ReportTime := time_Now;
          Results := [] |} |}.

(** The screenshot path of a spreadsheet row. *)
Definition excelScreenshot (result : Result) : string :=
  if nonempty (Screenshot result) then
    let screenshot := filepath_Join "screenshots" (filepath_Base (Screenshot result)) in
    let screenshot := ReplaceAll screenshot "\" "/" in
    if negb (HasPrefix screenshot "screenshots/")
    then "screenshots/" ++ filepath_Base screenshot
    else screenshot
  else "".

(** The [TemplateResult] the spreadsheet writer appends for a row. *)
Definition excelEntry (pageType : string) (result : Result) : TemplateResult :=
  let domainLink := domainLinkOf (Domain result) in
  let screenshot := excelScreenshot result in
  let title := decodeTitle (Title result) in
  let statusClass := statusClassOf (Alive result) in
  let domainStatus := if Alive result then "可访问" else "无法访问" in
  {| tr_Domain := Domain result;
     tr_DomainLink := domainLink;
     tr_StatusClass := statusClass;
     tr_DomainStatus := domainStatus;
     tr_StatusText := StatusText result;
     tr_Status := Status result;
     tr_ResponseTime := ResponseTime result;
     tr_PageType := pageType;
     tr_Title := title;
     tr_Message := Message result;
     tr_Screenshot := screenshot;
     tr_Alive := Alive result |}.

(** The calls a row makes on the main sheet and on the screenshot sheet, and
    what it prints. *)
Definition excelCalls (row screenshotRow : Z) (pageType : string) (result : Result)
  : list xl_call * list string :=
  let main_cells :=
    [NewStyle contentStyle;
     SetCellValue sheetName (cell "A" row) (VString (Domain result));
     SetCellValue sheetName (cell "B" row) (VString (StatusText result));
     SetCellValue sheetName (cell "C" row) (VInt (Status result));
     SetCellValue sheetName (cell "D" row)
       (VFloat64 (Milliseconds (ResponseTime result)));
     SetCellValue sheetName (cell "E" row) (VString pageType);
     SetCellValue sheetName (cell "F" row) (VString (Title result));
     SetCellValue sheetName (cell "G" row) (VString (Message result));
     SetCellStyle sheetName (cell "A" row) (cell "G" row) contentStyle] in
  let screenshot := excelScreenshot result in
  let link_cells :=
    if nonempty (Screenshot result) then
      [SetCellValue sheetName (cell "H" row) (VString "查看截图");
       NewStyle linkStyle;
       SetCellStyle sheetName (cell "H" row) (cell "H" row) linkStyle;
       SetCellHyperLink sheetName (cell "H" row) screenshot "External"]
    else
      [SetCellValue sheetName (cell "H" row) (VString "无截图");
       SetCellStyle sheetName (cell "H" row) (cell "H" row) contentStyle] in
  let picture :=
    if os_Stat (Screenshot result) then
      ([SetRowHeight screenshotSheet screenshotRow 300;
        AddPicture screenshotSheet (cell "B" screenshotRow) (Screenshot result)],
       match excelize_AddPicture screenshotSheet (cell "B" screenshotRow)
               (Screenshot result) with
       | Some err => ["添加图片到Excel时出错: " ++ err ++ nl]
       | None => []
       end)
    else
      ([SetCellValue screenshotSheet (cell "B" screenshotRow)
          (VString "无法获取截图")], []) in
  ((main_cells ++ link_cells ++
    [SetCellValue screenshotSheet (cell "A" screenshotRow)
       (VString (Domain result))] ++
    fst picture ++
    [SetCellStyle screenshotSheet (cell "A" screenshotRow)
       (cell "A" screenshotRow) contentStyle;
     SetCellStyle screenshotSheet (cell "B" screenshotRow)
       (cell "B" screenshotRow) contentStyle])%list,
   snd picture).

(** One iteration of the data loop of [SaveResultsToExcel]. *)
Definition excel_row (onlyAlive : bool) (st : xl_state) (result : Result)
  : fault xl_state :=
  if onlyAlive && negb (Alive result) then Ok st
  else
    let data := xl_data st in
    let row := xl_row st in
    let screenshotRow := xl_screenshotRow st in
    let alive := if Alive result then int64 (AliveDomains data + 1) else AliveDomains data in
    let dead := if Alive result then DeadDomains data else int64 (DeadDomains data + 1) in
    pageType <- pageTypeOf "" result ;;
    let calls := excelCalls row screenshotRow pageType result in
    Ok {| xl_f := xl_f st ++ fst calls;
          xl_stdout := xl_stdout st ++ snd calls;
          xl_row := int64 (row + 1);
          xl_screenshotRow := int64 (screenshotRow + 1);
          xl_data :=
            {| TotalDomains := TotalDomains data;
               AliveDomains := alive;
               DeadDomains := dead;
               ReportTime := ReportTime data;
               Results := Results data ++ [excelEntry pageType result] |} |}.

Fixpoint excel_rows (onlyAlive : bool) (results : list Result) (st : xl_state)
  : fault xl_state :=
  match results with
  | [] => Ok st
  | result :: rest =>
      st' <- excel_row onlyAlive st result ;;
      excel_rows onlyAlive rest st'
  end.

(** The state of the writer when its data loop is over. *)
Definition excelLoop (results : list Result) (onlyAlive : bool) : fault xl_state :=
  excel_rows onlyAlive results (excel_prologue results).

(** Column widths, frozen panes, [f.SaveAs] and the deferred [f.Close]. *)
Definition excel_epilogue (filename : string) (st : xl_state) : error * xl_state :=
  let calls : list xl_call :=
    (map (fun i => SetColWidth sheetName (ColumnNumberToName (i + 1))
                     (ColumnNumberToName (i + 1)) 20)
         (seq 0 (List.length headers)) ++
     [SetColWidth screenshotSheet "A" "A" 40;
      SetColWidth screenshotSheet "B" "B" 200;
      SetPanes sheetName;
      SetPanes screenshotSheet;
      SaveAs filename;
      Close])%list in
  let closing : list string :=
    match excelize_Close with
    | Some err => ["关闭 Excel 文件时出错: " ++ err ++ nl]
    | None => []
    end in
  (excelize_SaveAs filename,
   {| xl_f := xl_f st ++ calls;
      xl_stdout := xl_stdout st ++ closing;
      xl_row := xl_row st;
      xl_screenshotRow := xl_screenshotRow st;
      xl_data := xl_data st |}).

(** The returned error, and the writer's state at its return when it got as
    far as creating the workbook. *)
Definition SaveResultsToExcel (results : list Result) (filename : string)
    (onlyAlive : bool) : fault (error * option xl_state) :=
  let outputDir := filepath_Dir filename in
  let mkdir :=
    if nonempty outputDir && negb (outputDir =? ".")
    then os_MkdirAll outputDir else None in
  match mkdir with
  | Some err => Ok (Some ("创建输出目录失败: " ++ err), None)
  | None =>
      st <- excelLoop results onlyAlive ;;
      let end_ := excel_epilogue filename st in
      Ok (fst end_, Some (snd end_))
  end.

(** ** [SaveResultsToSimpleHTML] *)

(** The [TemplateResult] the HTML writer appends for a row. *)
Definition htmlEntry (pageType : string) (result : Result) : TemplateResult :=
  let statusClass := statusClassOf (Alive result) in
  let domainStatus := if Alive result then "alive" else "dead" in
  let domainLink := domainLinkOf (Domain result) in
  let screenshot :=
    if nonempty (Screenshot result) then
      let screenshotFile :=
        filepath_Join "screenshots" (filepath_Base (Screenshot result)) in
      screenshotToDataURI screenshotFile
    else "" in
  let title := decodeTitle (Title result) in
  {| tr_Domain := Domain result;
     tr_DomainLink := domainLink;
     tr_StatusClass := statusClass;
     tr_DomainStatus := domainStatus;
     tr_StatusText := StatusText result;
     tr_Status := Status result;
     tr_ResponseTime := ResponseTime result;
     tr_PageType := pageType;
     tr_Title := title;
     tr_Message := Message result;
     tr_Screenshot := screenshot;
     tr_Alive := Alive result |}.

(** One iteration of the data loop of [SaveResultsToSimpleHTML]. *)
Definition html_row (onlyAlive : bool) (data : TemplateData) (result : Result)
  : fault TemplateData :=
  if onlyAlive && negb (Alive result) then Ok data
  else
    let total := int64 (TotalDomains data + 1) in
    let alive := if Alive result then int64 (AliveDomains data + 1) else AliveDomains data in
    pageType <- pageTypeOf "-" result ;;
    Ok {| TotalDomains := total;
          AliveDomains := alive;
          DeadDomains := DeadDomains data;
          ReportTime := ReportTime data;
          Results := Results data ++ [htmlEntry pageType result] |}.

Fixpoint html_rows (onlyAlive : bool) (results : list Result) (data : TemplateData)
  : fault TemplateData :=
  match results with
  | [] => Ok data
  | result :: rest =>
      data' <- html_row onlyAlive data result ;;
      html_rows onlyAlive rest data'
  end.

(** [data] as the writer hands it to the template. *)
Definition simpleHTMLData (results : list Result) (onlyAlive : bool)
  : fault TemplateData :=
  data <- html_rows onlyAlive results
            {| TotalDomains := 0; AliveDomains := 0; DeadDomains := 0;
               ReportTime := time_Now; Results := [] |} ;;
  Ok {| TotalDomains := TotalDomains data;
        AliveDomains := AliveDomains data;
        DeadDomains := int64 (TotalDomains data - AliveDomains data);
        ReportTime := ReportTime data;
        Results := Results data |}.

Definition BOM : string :=
  String (ascii_of_nat 239) (String (ascii_of_nat 187) (String (ascii_of_nat 191) "")).

(** The returned error, and the writes to the created file if there is
    one. *)
Definition SaveResultsToSimpleHTML (results : list Result) (filename : string)
    (onlyAlive : bool) : fault (error * option (list string)) :=
  match os_Create filename with
  | Some err => Ok (Some err, None)
  | None =>
      let file := [BOM] in
      data <- simpleHTMLData results onlyAlive ;;
      match template_ParseFiles "view/template.html" with
      | Some err => Ok (Some ("解析模板文件失败: " ++ err), Some file)
      | None =>
          let out := template_Execute data in
          match snd out with
          | Some err => Ok (Some ("执行模板失败: " ++ err), Some (file ++ [fst out])%list)
          | None => Ok (None, Some (file ++ [fst out])%list)
          end
      end
  end.

Definition SaveResultsToHTML (results : list Result) (filename : string)
    (onlyAlive : bool) : fault (error * option (list string)) :=
  SaveResultsToSimpleHTML results filename onlyAlive.

(** ** Reading the writers' output *)

(** The rows the spreadsheet and HTML writers keep. *)
Definition skipped (onlyAlive : bool) (result : Result) : bool :=
  onlyAlive && negb (Alive result).

Definition kept (onlyAlive : bool) (results : list Result) : list Result :=
  filter (fun result => negb (skipped onlyAlive result)) results.

(** The alive and the dead results of a list, counted. *)
Definition aliveCount (results : list Result) : Z :=
  Z.of_nat (List.length (filter Alive results)).

Definition deadCount (results : list Result) : Z :=
  Z.of_nat (List.length (filter (fun result => negb (Alive result)) results)).

(** The page type a writer shows for a result. *)
Definition shownPageType (dflt : string) (result : Result) : string :=
  match PageInfo result with
  | Some pi => pi_Type pi
  | None => dflt
  end.

(** The CSV line of a result, field by field. *)
Definition csvLine (result : Result) (title message : string) : string :=
  Domain result ++ "," ++
  StatusText result ++ "," ++
  itoa (Status result) ++ "," ++
  fmt_2f (Milliseconds (ResponseTime result)) ++ "," ++
  shownPageType "" result ++ "," ++
  title ++ "," ++ message ++ nl.

(** [s'] is [s] with every comma replaced by a space: the same length, a
    space where [s] has a comma and the byte of [s] elsewhere. *)
Definition commas_blanked (s s' : string) : Prop :=
  forall i : nat,
    String.get i s' =
    option_map (fun c => if Ascii.eqb c "," then " "%char else c) (String.get i s).

(** The MIME type the data URI names for a lowercased extension. *)
Definition mimeTypeOf (ext : string) : string :=
  if ext =? ".png" then "image/png"
  else if ext =? ".gif" then "image/gif"
  else if ext =? ".webp" then "image/webp"
  else "image/jpeg".


(** The calls of the data loop for rows that are all kept, the first of them
    at spreadsheet row [row]. *)
Fixpoint excelCallsFrom (row : Z) (results : list Result) : list xl_call :=
  match results with
  | [] => []
  | result :: rest =>
      (fst (excelCalls row row (shownPageType "" result) result) ++
       excelCallsFrom (row + 1) rest)%list
  end.

(** What the data loop prints for rows that are all kept. *)
Fixpoint excelPrintsFrom (row : Z) (results : list Result) : list string :=
  match results with
  | [] => []
  | result :: rest =>
      (snd (excelCalls row row (shownPageType "" result) result) ++
       excelPrintsFrom (row + 1) rest)%list
  end.

(** How often the byte [c] occurs in [s]. *)
Fixpoint count_byte (c : ascii) (s : string) : nat :=
  match s with
  | EmptyString => 0
  | String x s' => (if Ascii.eqb x c then 1 else 0) + count_byte c s'
  end.

(** The writer's state with another [data.TotalDomains]. *)
Definition setTotal (n : Z) (st : xl_state) : xl_state :=
  {| xl_f := xl_f st;
     xl_stdout := xl_stdout st;
     xl_row := xl_row st;
     xl_screenshotRow := xl_screenshotRow st;
     xl_data :=
       {| TotalDomains := n;
          AliveDomains := AliveDomains (xl_data st);
          DeadDomains := DeadDomains (xl_data st);
          ReportTime := ReportTime (xl_data st);
          Results := Results (xl_data st) |} |}.

(** Column [E] of the main sheet, the page type column: the cells of that
    column the calls set, with their values, in the order of the calls. *)
Definition in_column_E (cellName : string) : bool :=
  match String.get 0 cellName with
  | Some c => Ascii.eqb c "E"
  | None => false
  end.

Definition pageTypeColumn (calls : list xl_call) : list (string * cell_value) :=
  flat_map
    (fun call =>
       match call with
       | SetCellValue sheet cellName v =>
           if (sheet =? sheetName) && in_column_E cellName
           then [(cellName, v)] else []
       | _ => []
       end)
    calls.
End Writers.

End view.

(** ** [PrintSummary] *)

Module config.

(** Modelled from the spec: the [config] package declares [Config]; of its
    options these are the ones [PrintSummary] reads: whether page info is
    extracted, and whether screenshots are taken of all domains or of the
    alive ones. *)
Record Config : Type := {
  ExtractInfo : bool;
  Screenshot : bool;
  ScreenshotAlive : bool
}.

End config.

Module summary.
Import view.

Local Open Scope string_scope.

(** What [PrintSummary] does, in program order: a write to standard output,
    or a call on [pageTypeCountMutex]. *)
Inductive effect : Type :=
| Print (s : string)
| Lock
| Unlock.

(** A computation that adds to the effects so far and may panic. *)
Definition io (A : Type) : Type := list effect -> list effect * fault A.

Definition pure {A : Type} (a : A) : io A := fun log => (log, Ok a).

Definition emit (e : effect) : io unit := fun log => ((log ++ [e])%list, Ok tt).

Definition seq {A B : Type} (c : io A) (k : A -> io B) : io B :=
  fun log =>
    match c log with
    | (log', Ok a) => k a log'
    | (log', Panic msg) => (log', Panic msg)
    end.

(** Reading a field or calling a method through a pointer. *)
Definition load {A : Type} (p : option A) : io A := fun log => (log, deref p).

Fixpoint each {A : Type} (body : A -> io unit) (l : list A) : io unit :=
  match l with
  | [] => pure tt
  | a :: rest => seq (body a) (fun _ => each body rest)
  end.

Notation "x <~ c1 ;; c2" := (seq c1 (fun x => c2))
  (at level 61, c1 at next level, right associativity).
Notation "c1 ;;; c2" := (seq c1 (fun _ => c2))
  (at level 61, right associativity).

Section Summary.
(** [%.2f] of [totalTime.Seconds()] *)
Variable seconds_2f : Z -> string.

(** One line of the page type statistics. *)
Definition typeLine (entry : string * Z) : string :=
  "  " ++ fst entry ++ ": " ++ itoa (snd entry) ++ " 个" ++ nl.

(** [pageTypeCount] is the map as [range] goes through it: its entries in
    the order of that iteration; a nil map has none. The result is what was
    done, and whether the function returned or panicked. *)
Definition PrintSummary (total alive dead : Z) (cfg : option config.Config)
    (pageTypeCount : list (string * Z)) (pageTypeCountMutex : option unit)
    (screenshotCount : Z) (totalTime : Z) : list effect * fault unit :=
  (emit (Print (nl ++ "检测结果 (总结):" ++ nl)) ;;;
   emit (Print ("----------------------------------------" ++ nl)) ;;;
   emit (Print ("总计: " ++ itoa total ++ " 个域名, " ++ itoa alive ++
                " 个存活, " ++ itoa dead ++ " 个无法访问" ++ nl)) ;;;
   c <~ load cfg ;;
   (if config.ExtractInfo c && Nat.ltb 0 (List.length pageTypeCount) then
      emit (Print ("页面类型统计:" ++ nl)) ;;;
      _ <~ load pageTypeCountMutex ;;
      emit Lock ;;;
      each (fun entry => emit (Print (typeLine entry))) pageTypeCount ;;;
      emit Unlock
    else pure tt) ;;;
   c <~ load cfg ;;
   (if config.Screenshot c || config.ScreenshotAlive c then
      if config.ScreenshotAlive c
      then emit (Print ("成功截图存活网站: " ++ itoa screenshotCount ++ " 个" ++ nl))
      else emit (Print ("成功截图: " ++ itoa screenshotCount ++ " 个" ++ nl))
    else pure tt) ;;;
   emit (Print ("检测耗时: " ++ seconds_2f totalTime ++ " 秒" ++ nl))) [].

(** The three lines every summary begins with. *)
Definition headLines (total alive dead : Z) : list effect :=
  [Print (nl ++ "检测结果 (总结):" ++ nl);
   Print ("----------------------------------------" ++ nl);
   Print ("总计: " ++ itoa total ++ " 个域名, " ++ itoa alive ++
          " 个存活, " ++ itoa dead ++ " 个无法访问" ++ nl)].

(** The lines a summary ends with. *)
Definition tailLines (cfg : config.Config) (screenshotCount totalTime : Z)
  : list effect :=
  ((if config.Screenshot cfg || config.ScreenshotAlive cfg then
      [Print ((if config.ScreenshotAlive cfg
               then "成功截图存活网站: " else "成功截图: ") ++
              itoa screenshotCount ++ " 个" ++ nl)]
    else []) ++
   [Print ("检测耗时: " ++ seconds_2f totalTime ++ " 秒" ++ nl)])%list.

End Summary.

Definition is_print (e : effect) : bool :=
  match e with Print _ => true | _ => false end.

(** Whether the page type statistics are shown. *)
Definition shows_types (cfg : config.Config) (pageTypeCount : list (string * Z)) : bool :=
  config.ExtractInfo cfg && Nat.ltb 0 (List.length pageTypeCount).

(** Whether the screenshot count is shown. *)
Definition shows_screenshots (cfg : config.Config) : bool :=
  config.Screenshot cfg || config.ScreenshotAlive cfg.

End summary.

(** ** The Dispatcher *)

Module Dispatcher.
Import checker.

(** Modelled from the spec: the Dispatcher and the Prober are not part of
    [view.go]. A probe task either returns what [Check] found or faults; a
    fault is caught and converted into a Result with [Alive = false] and a
    diagnostic [Message]. *)
Inductive outcome : Type :=
| Checked (alive : bool) (status : Z) (statusText : string) (responseTime : Z)
          (pageInfo : option PageInfoT) (title message screenshot : string)
| Faulted (message : string).

(** Modelled from the spec: the one Result a probe task emits for its
    domain. *)
Definition result_of (domain : string) (o : outcome) : Result :=
  match o with
  | Checked alive status statusText responseTime pageInfo title message screenshot =>
      {| Domain := domain; Alive := alive; Status := status;
         StatusText := statusText; ResponseTime := responseTime;
         PageInfo := pageInfo; Title := title; Message := message;
         Screenshot := screenshot |}
  | Faulted message =>
      {| Domain := domain; Alive := false; Status := 0;
         StatusText := EmptyString; ResponseTime := 0;
         PageInfo := None; Title := EmptyString; Message := message;
         Screenshot := EmptyString |}
  end.

(** Modelled from the spec: the domains still waiting for a slot, the
    domains whose check occupies a slot, and the accumulated Results in
    completion order. *)
Record state : Type := {
  pending : list string;
  slots : list string;
  results : list Result
}.

(** Modelled from the spec: what the scheduler can do next. [Start] gives the
    next waiting domain a free slot; [Finish i o] lets the task in slot [i]
    complete with outcome [o]. *)
Inductive action : Type :=
| Start
| Finish (i : nat) (o : outcome).

(** Modelled from the spec: one step of a pool of [W] slots; [None] when the
    action is not enabled (no free slot, nothing waiting, no such task). *)
Definition step (W : nat) (st : state) (a : action) : option state :=
  match a with
  | Start =>
      match pending st with
      | d :: rest =>
          if Nat.ltb (List.length (slots st)) W
          then Some {| pending := rest; slots := slots st ++ [d];
                       results := results st |}
          else None
      | [] => None
      end
  | Finish i o =>
      match nth_error (slots st) i with
      | Some d =>
          Some {| pending := pending st;
                  slots := firstn i (slots st) ++ skipn (S i) (slots st);
                  results := results st ++ [result_of d o] |}
      | None => None
      end
  end.

(** Modelled from the spec: a schedule, run from a state. *)
Fixpoint exec (W : nat) (sched : list action) (st : state) : option state :=
  match sched with
  | [] => Some st
  | a :: rest =>
      match step W st a with
      | Some st' => exec W rest st'
      | None => None
      end
  end.

(** Modelled from the spec: [Run] starts with every domain waiting and
    returns once nothing waits and every slot is drained. *)
Definition init (domains : list string) : state :=
  {| pending := domains; slots := []; results := [] |}.

Definition finished (st : state) : bool :=
  match pending st, slots st with
  | [], [] => true
  | _, _ => false
  end.

(** Modelled from the spec: the schedule of a pool that takes the domains
    one after the other, each completing with the outcome [o] gives it. *)
Fixpoint sequential (o : string -> outcome) (domains : list string) : list action :=
  match domains with
  | [] => []
  | d :: rest => Start :: Finish 0 (o d) :: sequential o rest
  end.

End Dispatcher.

(** ** A platform to run the writers on *)

Module Sample.
Import view.

Local Open Scope string_scope.

Fixpoint has_byte (c : ascii) (s : string) : bool :=
  match s with
  | EmptyString => false
  | String x s' => Ascii.eqb x c || has_byte c s'
  end.

(** What follows the last [c] of [s]; [s] when it has none. *)
Fixpoint after_last (c : ascii) (s : string) : string :=
  match s with
  | EmptyString => EmptyString
  | String x s' =>
      if has_byte c s' then after_last c s'
      else if Ascii.eqb x c then s' else s
  end.

(** What precedes the last [c] of [s]; empty when it has none. *)
Fixpoint before_last (c : ascii) (s : string) : string :=
  match s with
  | EmptyString => EmptyString
  | String x s' =>
      if has_byte c s' then String x (before_last c s') else EmptyString
  end.

(** [filepath.Base], [filepath.Dir], [filepath.Ext] and [filepath.Join] with
    [/] as the separator, on clean relative paths that do not end in [/]. *)
Definition Base (p : string) : string :=
  if nonempty p then after_last "/" p else ".".

Definition Dir (p : string) : string :=
  if has_byte "/" p then before_last "/" p else ".".

Definition Ext (p : string) : string :=
  let b := after_last "/" p in
  if has_byte "." b then "." ++ after_last "." b else "".

Definition Join (a b : string) : string :=
  if a =? "." then b else a ++ "/" ++ b.

(** [strings.ToLower] on ASCII letters; other bytes are kept. *)
Definition lower (c : ascii) : ascii :=
  let n := nat_of_ascii c in
  if (Nat.leb 65 n && Nat.leb n 90)%bool then ascii_of_nat (n + 32) else c.

Fixpoint ToLower (s : string) : string :=
  match s with
  | EmptyString => EmptyString
  | String c s' => String (lower c) (ToLower s')
  end.

(** [base64.StdEncoding.EncodeToString] *)
Definition b64_alphabet : string :=
  "ABCDEFGHIJKLMNOPQRSTUVWXYZabcdefghijklmnopqrstuvwxyz0123456789+/".

Definition b64_char (n : nat) : ascii :=
  match String.get n b64_alphabet with
  | Some c => c
  | None => "="%char
  end.

Fixpoint EncodeToString (s : string) : string :=
  match s with
  | EmptyString => EmptyString
  | String a EmptyString =>
      let x := nat_of_ascii a in
      String (b64_char (x / 4)) (String (b64_char (x mod 4 * 16)) "==")
  | String a (String b EmptyString) =>
      let x := nat_of_ascii a in
      let y := nat_of_ascii b in
      String (b64_char (x / 4))
        (String (b64_char (x mod 4 * 16 + y / 16))
           (String (b64_char (y mod 16 * 4)) "="))
  | String a (String b (String c rest)) =>
      let x := nat_of_ascii a in
      let y := nat_of_ascii b in
      let z := nat_of_ascii c in
      String (b64_char (x / 4))
        (String (b64_char (x mod 4 * 16 + y / 16))
           (String (b64_char (y mod 16 * 4 + z / 64))
              (String (b64_char (z mod 64)) (EncodeToString rest))))
  end%nat.

(** [utf8.ValidString], on the bytes as numbers. *)
Definition between (lo hi n : nat) : bool := (Nat.leb lo n && Nat.leb n hi)%bool.

Definition cont (n : nat) : bool := between 128 191 n.

Fixpoint valid_utf8 (bs : list nat) : bool :=
  match bs with
  | [] => true
  | b0 :: r0 =>
      if Nat.ltb b0 128 then valid_utf8 r0
      else
        match r0 with
        | b1 :: r1 =>
            if between 194 223 b0 then cont b1 && valid_utf8 r1
            else
              match r1 with
              | b2 :: r2 =>
                  if between 224 239 b0 then
                    (if Nat.eqb b0 224 then between 160 191 b1
                     else if Nat.eqb b0 237 then between 128 159 b1
                     else cont b1) && cont b2 && valid_utf8 r2
                  else
                    match r2 with
                    | b3 :: r3 =>
                        if between 240 244 b0 then
                          (if Nat.eqb b0 240 then between 144 191 b1
                           else if Nat.eqb b0 244 then between 128 143 b1
                           else cont b1) && cont b2 && cont b3 && valid_utf8 r3
                        else false
                    | [] => false
                    end
              | [] => false
              end
        | [] => false
        end
  end%bool.

Definition ValidString (s : string) : bool :=
  valid_utf8 (map nat_of_ascii (list_ascii_of_string s)).

(** A platform over a file system [fs] and a GBK decoder [gbk]: creating,
    saving and rendering succeed, the template writes nothing. *)
Definition platform (fs : string -> option string) (gbk : string -> option string)
  : Platform :=
  {| os_Create := fun _ => None;
     os_MkdirAll := fun _ => None;
     os_ReadFile := fs;
     os_Stat := fun p => match fs p with Some _ => true | None => false end;
     filepath_Dir := Dir;
     filepath_Base := Base;
     filepath_Join := Join;
     filepath_Ext := Ext;
     strings_ToLower := ToLower;
     base64_EncodeToString := EncodeToString;
     utf8_ValidString := ValidString;
     GBK_decode := gbk;
     time_Now := "2025-01-01 00:00:00";
     template_ParseFiles := fun _ => None;
     template_Execute := fun _ => (EmptyString, None);
     excelize_AddPicture := fun _ _ _ => None;
     excelize_SaveAs := fun _ => None;
     excelize_Close := None |}.

(** No files, and a decoder that always fails. *)
Definition bare : Platform := platform (fun _ => None) (fun _ => None).

(** One file, [screenshots/a.PNG], holding the two bytes [hi]. *)
Definition one_file : Platform :=
  platform (fun p => if p =? "screenshots/a.PNG" then Some "hi" else None)
           (fun _ => None).

(** Sample results. *)
Definition up (domain : string) : checker.Result :=
  {| checker.Domain := domain; checker.Alive := true; checker.Status := 200;
     checker.StatusText := "OK"; checker.ResponseTime := 12345678;
     checker.PageInfo := Some {| checker.pi_Type := "login"; checker.pi_Title := "Hi" |};
     checker.Title := "Hi, there"; checker.Message := "";
     checker.Screenshot := "" |}.

Definition down (domain : string) : checker.Result :=
  {| checker.Domain := domain; checker.Alive := false; checker.Status := 0;
     checker.StatusText := "dead"; checker.ResponseTime := 0;
     checker.PageInfo := None;
     checker.Title := ""; checker.Message := "dial tcp: timeout, retry";
     checker.Screenshot := "" |}.


(** The two bytes of a GBK-encoded character, which are not valid UTF-8, and
    a decoder that knows this one string. *)
Definition ni_gbk : string :=
  String (ascii_of_nat 196) (String (ascii_of_nat 227) EmptyString).

Definition ni_utf8 : string := "你".

Definition with_gbk : Platform :=
  platform (fun _ => None) (fun s => if s =? ni_gbk then Some ni_utf8 else None).

(** A result with a GBK title and one with a title no decoder accepts. *)
Definition titled (title : string) : checker.Result :=
  {| checker.Domain := "t.example"; checker.Alive := true; checker.Status := 200;
     checker.StatusText := "OK"; checker.ResponseTime := 1000000;
     checker.PageInfo := None;
     checker.Title := title; checker.Message := "";
     checker.Screenshot := "" |}.

End Sample.

(** * Properties *)

(** ** Integers *)

Lemma int32_small (x : Z) : in_int32 x -> int32 x = x.
Proof.
  unfold in_int32, int32, wrap. intros H.
  change (2 ^ (32 - 1)) with (2 ^ 31). change (2 ^ 32) with (2 * 2 ^ 31).
  rewrite Z.mod_small; lia.
Qed.

Lemma int32_in_range (x : Z) : in_int32 (int32 x).
Proof.
  unfold in_int32, int32, wrap.
  change (2 ^ (32 - 1)) with (2 ^ 31).
  assert (H := Z.mod_pos_bound (x + 2 ^ 31) (2 ^ 32) ltac:(lia)).
  change (2 ^ 32) with (2 * 2 ^ 31) in *. lia.
Qed.

Lemma int64_small (x : Z) : - 2 ^ 63 <= x <= MaxInt -> int64 x = x.
Proof.
  unfold MaxInt, int64, wrap. intros H.
  change (2 ^ (64 - 1)) with (2 ^ 63). change (2 ^ 64) with (2 * 2 ^ 63).
  rewrite Z.mod_small; lia.
Qed.

(** ** The progress reporter *)

Module ProgressFacts.
Import Progress.

Lemma run_app total tr1 tr2 w :
  run total (tr1 ++ tr2) w = run total tr2 (run total tr1 w).
Proof. unfold run. apply fold_left_app. Qed.

Lemma run_cons total ev tr w :
  run total (ev :: tr) w = run total tr (step total w ev).
Proof. reflexivity. Qed.

(** A wake-up leaves the counter as it found it. *)
Lemma step_wakeup_counter total w ev :
  is_wakeup ev = true -> processed (step total w ev) = processed w.
Proof.
  destruct ev; simpl; try discriminate; intros _;
    destruct (running (reporter w)); reflexivity.
Qed.

(** Once the goroutine has returned, nothing moves it. *)
Lemma step_returned total w ev :
  running (reporter w) = false -> reporter (step total w ev) = reporter w.
Proof.
  intros H. destruct ev; simpl; rewrite ?H; reflexivity.
Qed.

Lemma run_returned total tr : forall w,
  running (reporter w) = false -> reporter (run total tr w) = reporter w.
Proof.
  induction tr as [|ev tr IH]; intros w H; [reflexivity|].
  rewrite run_cons, IH; rewrite step_returned; auto.
Qed.

Lemma step_in_int32 total w ev :
  in_int32 (processed w) -> in_int32 (processed (step total w ev)).
Proof.
  intros H. destruct ev; simpl.
  - destruct (running (reporter w)); assumption.
  - destruct (running (reporter w)); assumption.
  - apply int32_in_range.
Qed.

Lemma run_in_int32 total tr : forall w,
  in_int32 (processed w) -> in_int32 (processed (run total tr w)).
Proof.
  induction tr as [|ev tr IH]; intros w H; [assumption|].
  rewrite run_cons. apply IH, step_in_int32, H.
Qed.

(** The test of the source, [current >= int32(totalDomains)], holds whenever
    the counter has reached a non-negative total. *)
Lemma reached_passes_test total current :
  0 <= total -> in_int32 current -> total <= current ->
  (int32 total <=? current) = true.
Proof.
  intros Ht Hc Hle. rewrite int32_small; [apply Z.leb_le; assumption|].
  unfold in_int32 in *. lia.
Qed.

Lemma printed_ret g : filter is_print (effects (ret g)) = filter is_print (effects g).
Proof. simpl. rewrite filter_app. simpl. apply app_nil_r. Qed.

(** A terminating event stops the goroutine and prints nothing. *)
Lemma step_terminating total w ev :
  0 <= total -> in_int32 (processed w) ->
  terminating total w ev = true ->
  running (reporter (step total w ev)) = false /\
  printed (step total w ev) = printed w.
Proof.
  intros Ht Hc Hterm. unfold printed.
  destruct ev; simpl in *; try discriminate.
  - destruct (running (reporter w)) eqn:Hrun; [|auto].
    simpl. unfold on_tick.
    rewrite reached_passes_test by (auto; apply Z.leb_le; assumption).
    split; [reflexivity|].
    rewrite printed_ret. simpl. rewrite filter_app. simpl. apply app_nil_r.
  - destruct (running (reporter w)) eqn:Hrun; [|auto].
    simpl. split; [reflexivity|]. rewrite filter_app. simpl. apply app_nil_r.
Qed.


(** From a terminating event on: the reporter goroutine is gone as soon as the stop signal is
    received or a tick finds the counter at (or beyond) the total, whichever
    event of the trace that is; that event prints nothing, and nothing is
    printed after it. *)
Theorem reporter_stops_at_terminating_event total w0 pre ev post :
  0 <= total -> in_int32 (processed w0) ->
  terminating total (run total pre w0) ev = true ->
  running (reporter (run total (pre ++ [ev]) w0)) = false /\
  printed (run total (pre ++ ev :: post) w0) = printed (run total pre w0).
Proof.
  intros Ht Hc Hterm.
  assert (Hpre := run_in_int32 total pre w0 Hc).
  destruct (step_terminating total _ ev Ht Hpre Hterm) as [Hstop Hprint].
  rewrite !run_app. simpl run at 1. rewrite run_cons.
  split; [exact Hstop|].
  unfold printed in *. rewrite run_returned by exact Hstop. exact Hprint.
Qed.

Lemma reporter_stops_at_terminating_event_witness :
  0 <= 2 /\ in_int32 (processed (ShowProgress 0)) /\
  terminating 2
    (run 2 [TickerC; AtomicAddInt32 1; TickerC; AtomicAddInt32 1] (ShowProgress 0))
    TickerC = true /\
  running (reporter (run 2
    ([TickerC; AtomicAddInt32 1; TickerC; AtomicAddInt32 1] ++ [TickerC])
    (ShowProgress 0))) = false /\
  printed (run 2
    ([TickerC; AtomicAddInt32 1; TickerC; AtomicAddInt32 1] ++
     TickerC :: [TickerC; DoneChan]) (ShowProgress 0)) =
  printed (run 2 [TickerC; AtomicAddInt32 1; TickerC; AtomicAddInt32 1]
    (ShowProgress 0)).
Proof.
  assert (H0 : 0 <= 2) by lia.
  assert (H1 : in_int32 (processed (ShowProgress 0)))
    by (unfold in_int32; simpl; lia).
  assert (H2 : terminating 2
    (run 2 [TickerC; AtomicAddInt32 1; TickerC; AtomicAddInt32 1] (ShowProgress 0))
    TickerC = true) by reflexivity.
  split; [exact H0|]. split; [exact H1|]. split; [exact H2|].
  exact (reporter_stops_at_terminating_event 2 (ShowProgress 0)
           [TickerC; AtomicAddInt32 1; TickerC; AtomicAddInt32 1] TickerC
           [TickerC; DoneChan] H0 H1 H2).
Defined.

(** Within the range of [int32] the goroutine stops no earlier: while no
    event is a terminating one it keeps running and prints one line at
    every tick. *)
Lemma reporter_runs_until_then total tr : forall w,
  in_int32 total -> in_int32 (processed w) ->
  running (reporter w) = true ->
  undisturbed total tr w = true ->
  running (reporter (run total tr w)) = true /\
  printed (run total tr w) = printed w ++ lines_of total tr (processed w).
Proof.
  induction tr as [|ev tr IH]; intros w Ht Hc Hrun Hund.
  - simpl. unfold printed. rewrite app_nil_r. auto.
  - simpl in Hund. apply andb_true_iff in Hund as [Hnt Hund].
    apply negb_true_iff in Hnt. rewrite run_cons.
    assert (Hc' := step_in_int32 total w ev Hc).
    destruct ev; simpl in Hnt; try discriminate.
    + assert (Hstep : step total w TickerC =
        {| processed := processed w;
           reporter := emit (emit (reporter w) [LoadInt32 (processed w)])
                         [Float64Div (processed w) total; Printf (processed w) total] |}).
      { simpl. rewrite Hrun. unfold on_tick.
        rewrite (int32_small total Ht), Hnt. reflexivity. }
      rewrite Hstep in *.
      destruct (IH _ Ht Hc' Hrun Hund) as [IH1 IH2].
      split; [exact IH1|]. rewrite IH2. unfold printed. simpl.
      rewrite !filter_app. simpl. rewrite app_nil_r, <- app_assoc. reflexivity.
    + destruct (IH _ Ht Hc' Hrun Hund) as [IH1 IH2].
      split; [exact IH1|]. rewrite IH2. reflexivity.
Qed.

(** Beyond that range the conversion [int32(totalDomains)] wraps: with a
    total of 2^32 the first tick ends the goroutine at a counter of 0. *)
Example reporter_wraps_total :
  running (reporter (run (2 ^ 32) [TickerC] (ShowProgress 0))) = false.
Proof. reflexivity. Qed.

(** C3. With no domains the goroutine returns at its first wake-up: it
    prints no line and evaluates no division, whatever follows. The counter
    is a count, so the wake-up finds it non-negative. *)
Theorem zero_total_returns_at_first_wakeup c0 pre ev post :
  Forall (fun e => is_wakeup e = false) pre ->
  is_wakeup ev = true ->
  0 <= processed (run 0 pre (ShowProgress c0)) ->
  running (reporter (run 0 (pre ++ [ev]) (ShowProgress c0))) = false /\
  Forall (fun e => is_print e = false /\ is_div e = false)
    (effects (reporter (run 0 (pre ++ ev :: post) (ShowProgress c0)))).
Proof.
  intros Hpre Hev Hc.
  assert (Hquiet : forall w, Forall (fun e => is_wakeup e = false) pre ->
            reporter (run 0 pre w) = reporter w).
  { clear. induction pre as [|e pre IH]; intros w H; [reflexivity|].
    inversion H as [|? ? He Hrest]; subst. rewrite run_cons, IH by assumption.
    destruct e; simpl in He; try discriminate. reflexivity. }
  specialize (Hquiet (ShowProgress c0) Hpre).
  set (w := run 0 pre (ShowProgress c0)) in *.
  assert (Hstep : running (reporter (step 0 w ev)) = false /\
          Forall (fun e => is_print e = false /\ is_div e = false)
            (effects (reporter (step 0 w ev)))).
  { destruct ev; simpl in Hev; try discriminate; simpl; rewrite Hquiet; simpl.
    - unfold on_tick. change (int32 0) with 0.
      replace (0 <=? processed w) with true by (symmetry; apply Z.leb_le; exact Hc).
      simpl. split; [reflexivity|]. repeat constructor.
    - split; [reflexivity|]. repeat constructor. }
  destruct Hstep as [Hstop Hnone].
  rewrite !run_app. fold w. simpl run at 1. rewrite run_cons.
  split; [exact Hstop|]. rewrite run_returned by exact Hstop. exact Hnone.
Qed.

Lemma zero_total_returns_at_first_wakeup_witness :
  Forall (fun e => is_wakeup e = false) [] /\
  is_wakeup TickerC = true /\
  0 <= processed (run 0 [] (ShowProgress 0)) /\
  running (reporter (run 0 ([] ++ [TickerC]) (ShowProgress 0))) = false /\
  Forall (fun e => is_print e = false /\ is_div e = false)
    (effects (reporter (run 0 ([] ++ TickerC :: [TickerC; DoneChan]) (ShowProgress 0)))).
Proof.
  assert (H0 : Forall (fun e => is_wakeup e = false) (@nil event)) by constructor.
  assert (H1 : is_wakeup TickerC = true) by reflexivity.
  assert (H2 : 0 <= processed (run 0 [] (ShowProgress 0))) by (simpl; lia).
  split; [exact H0|]. split; [exact H1|]. split; [exact H2|].
  exact (zero_total_returns_at_first_wakeup 0 [] TickerC [TickerC; DoneChan] H0 H1 H2).
Defined.

(** A negative counter would pass the guard: the hypothesis on the counter
    is needed. *)
Example zero_total_negative_counter :
  effects (reporter (run 0 [TickerC] (ShowProgress (-1)))) =
  [LoadInt32 (-1); Float64Div (-1) 0; Printf (-1) 0].
Proof. reflexivity. Qed.

(** C5. The reporter never writes the shared counter: after any trace the
    counter is what the probe tasks' additions alone make it. *)
Theorem reporter_leaves_counter total tr : forall w,
  processed (run total tr w) = counter_of_tasks tr (processed w).
Proof.
  induction tr as [|ev tr IH]; intros w; [reflexivity|].
  rewrite run_cons, IH. destruct ev; simpl.
  - destruct (running (reporter w)); reflexivity.
  - destruct (running (reporter w)); reflexivity.
  - reflexivity.
Qed.

End ProgressFacts.

(** ** The report writers *)

Module ViewFacts.
Import checker view.

Local Open Scope string_scope.

Section WithPlatform.
Context {P : Platform}.

(** The nil check comes first, so the dereference cannot panic. *)
Lemma pageTypeOf_ok dflt result :
  pageTypeOf dflt result = Ok (shownPageType dflt result).
Proof.
  unfold pageTypeOf, shownPageType.
  destruct (PageInfo result); reflexivity.
Qed.

(** *** [strings.ReplaceAll(s, ",", " ")] *)


Lemma ReplaceAll_length s old new :
  String.length (ReplaceAll s old new) = String.length s.
Proof. induction s as [|c s IH]; simpl; congruence. Qed.

Lemma commas_blanked_no_comma s s' :
  commas_blanked s s' -> forall i, String.get i s' <> Some ","%char.
Proof.
  intros H i Hi. rewrite H in Hi.
  destruct (String.get i s) as [c|]; simpl in Hi; [|discriminate].
  destruct (Ascii.eqb c ",") eqn:E; inversion Hi; subst; discriminate.
Qed.

(** *** [SaveResultsToFile] *)

Lemma csv_row_ok result :
  csv_row result =
  Ok (csvLine result (ReplaceAll (Title result) "," " ")
        (ReplaceAll (Message result) "," " ")).
Proof. unfold csv_row. rewrite pageTypeOf_ok. reflexivity. Qed.

Lemma csv_rows_ok results : forall file,
  csv_rows results file =
  Ok (file ++ map (fun result =>
                     csvLine result (ReplaceAll (Title result) "," " ")
                       (ReplaceAll (Message result) "," " ")) results)%list.
Proof.
  induction results as [|result rest IH]; intros file; simpl.
  - rewrite app_nil_r. reflexivity.
  - rewrite csv_row_ok. simpl. rewrite IH, <- app_assoc. reflexivity.
Qed.

(** *** The data loops *)

Lemma excel_row_ok onlyAlive st result :
  excel_row onlyAlive st result =
  Ok (if skipped onlyAlive result then st
      else
        let calls := excelCalls (xl_row st) (xl_screenshotRow st)
                       (shownPageType "" result) result in
        {| xl_f := xl_f st ++ fst calls;
           xl_stdout := xl_stdout st ++ snd calls;
           xl_row := int64 (xl_row st + 1);
           xl_screenshotRow := int64 (xl_screenshotRow st + 1);
           xl_data :=
             {| TotalDomains := TotalDomains (xl_data st);
                AliveDomains :=
                  if Alive result then int64 (AliveDomains (xl_data st) + 1)
                  else AliveDomains (xl_data st);
                DeadDomains :=
                  if Alive result then DeadDomains (xl_data st)
                  else int64 (DeadDomains (xl_data st) + 1);
                ReportTime := ReportTime (xl_data st);
                Results := Results (xl_data st) ++
                           [excelEntry (shownPageType "" result) result] |} |})%list.
Proof.
  unfold excel_row, skipped.
  destruct (onlyAlive && negb (Alive result)); [reflexivity|].
  rewrite pageTypeOf_ok. reflexivity.
Qed.

Lemma html_row_ok onlyAlive data result :
  html_row onlyAlive data result =
  Ok (if skipped onlyAlive result then data
      else
        {| TotalDomains := int64 (TotalDomains data + 1);
           AliveDomains :=
             if Alive result then int64 (AliveDomains data + 1)
             else AliveDomains data;
           DeadDomains := DeadDomains data;
           ReportTime := ReportTime data;
           Results := Results data ++
                      [htmlEntry (shownPageType "-" result) result] |})%list.
Proof.
  unfold html_row, skipped.
  destruct (onlyAlive && negb (Alive result)); [reflexivity|].
  rewrite pageTypeOf_ok. reflexivity.
Qed.

(** The spreadsheet loop never faults; it appends one entry for each kept
    row, in input order, and leaves [TotalDomains] alone. *)
Lemma excel_rows_ok onlyAlive results : forall st,
  exists st',
    excel_rows onlyAlive results st = Ok st' /\
    Results (xl_data st') =
      (Results (xl_data st) ++
       map (fun result => excelEntry (shownPageType "" result) result)
           (kept onlyAlive results))%list /\
    TotalDomains (xl_data st') = TotalDomains (xl_data st).
Proof.
  induction results as [|result rest IH]; intros st; simpl.
  - exists st. rewrite app_nil_r. auto.
  - rewrite excel_row_ok. simpl. unfold kept. simpl.
    destruct (skipped onlyAlive result) eqn:Hs; simpl.
    + apply IH.
    + match goal with |- context [excel_rows _ _ ?s] => destruct (IH s) as (st' & H1 & H2 & H3) end.
      exists st'. split; [exact H1|]. simpl in H2, H3.
      rewrite H2, <- app_assoc. auto.
Qed.

(** The HTML loop never faults and appends one entry for each kept row. *)
Lemma html_rows_ok onlyAlive results : forall data,
  exists data',
    html_rows onlyAlive results data = Ok data' /\
    Results data' =
      (Results data ++
       map (fun result => htmlEntry (shownPageType "-" result) result)
           (kept onlyAlive results))%list.
Proof.
  induction results as [|result rest IH]; intros data; simpl.
  - exists data. rewrite app_nil_r. auto.
  - rewrite html_row_ok. simpl. unfold kept. simpl.
    destruct (skipped onlyAlive result) eqn:Hs; simpl.
    + apply IH.
    + match goal with |- context [html_rows _ _ ?d] => destruct (IH d) as (data' & H1 & H2) end.
      exists data'. split; [exact H1|]. simpl in H2.
      rewrite H2, <- app_assoc. auto.
Qed.

Lemma excelLoop_ok results onlyAlive :
  exists st,
    excelLoop results onlyAlive = Ok st /\
    Results (xl_data st) =
      map (fun result => excelEntry (shownPageType "" result) result)
          (kept onlyAlive results) /\
    TotalDomains (xl_data st) = Z.of_nat (List.length results).
Proof.
  unfold excelLoop.
  destruct (excel_rows_ok onlyAlive results (excel_prologue results))
    as (st & H1 & H2 & H3).
  exists st. auto.
Qed.

Lemma simpleHTMLData_ok results onlyAlive :
  exists data,
    simpleHTMLData results onlyAlive = Ok data /\
    Results data =
      map (fun result => htmlEntry (shownPageType "-" result) result)
          (kept onlyAlive results).
Proof.
  unfold simpleHTMLData.
  match goal with |- context [html_rows _ _ ?d] =>
    destruct (html_rows_ok onlyAlive results d) as (data & H1 & H2) end.
  rewrite H1. simpl. eexists. split; [reflexivity|]. exact H2.
Qed.

Lemma SaveResultsToFile_total results filename :
  exists out, SaveResultsToFile results filename = Ok out.
Proof.
  unfold SaveResultsToFile. destruct (os_Create filename); [eauto|].
  rewrite csv_rows_ok. simpl. eauto.
Qed.

Lemma SaveResultsToExcel_total results filename onlyAlive :
  exists out, SaveResultsToExcel results filename onlyAlive = Ok out.
Proof.
  unfold SaveResultsToExcel.
  destruct (excelLoop_ok results onlyAlive) as (st & H & _).
  rewrite H. simpl.
  destruct (nonempty (filepath_Dir filename) && negb (filepath_Dir filename =? "."));
    [destruct (os_MkdirAll _)|]; eauto.
Qed.

Lemma SaveResultsToSimpleHTML_total results filename onlyAlive :
  exists out, SaveResultsToSimpleHTML results filename onlyAlive = Ok out.
Proof.
  unfold SaveResultsToSimpleHTML.
  destruct (simpleHTMLData_ok results onlyAlive) as (data & H & _).
  rewrite H. simpl.
  destruct (os_Create filename); [eauto|].
  destruct (template_ParseFiles _); [eauto|].
  destruct (snd _); eauto.
Qed.


(** *** The counts *)

Lemma counts_split results :
  aliveCount results + deadCount results = Z.of_nat (List.length results).
Proof.
  unfold aliveCount, deadCount.
  induction results as [|r rest IH]; [reflexivity|].
  cbn [filter]. destruct (Alive r); cbn [negb List.length]; lia.
Qed.

Lemma kept_length onlyAlive results :
  (List.length (kept onlyAlive results) <= List.length results)%nat.
Proof. apply filter_length_le. Qed.

(** The spreadsheet loop tallies the kept rows. *)
Lemma excel_rows_counts onlyAlive results : forall st st',
  (0 <= AliveDomains (xl_data st))%Z -> (0 <= DeadDomains (xl_data st))%Z ->
  (AliveDomains (xl_data st) + DeadDomains (xl_data st) +
     Z.of_nat (List.length results) <= MaxInt)%Z ->
  excel_rows onlyAlive results st = Ok st' ->
  AliveDomains (xl_data st') =
    (AliveDomains (xl_data st) + aliveCount (kept onlyAlive results))%Z /\
  DeadDomains (xl_data st') =
    (DeadDomains (xl_data st) + deadCount (kept onlyAlive results))%Z.
Proof.
  unfold aliveCount, deadCount, kept.
  induction results as [|r rest IH]; intros st st' Ha Hd Hb Hrun.
  - simpl in *. inversion Hrun; subst. lia.
  - simpl in Hrun. rewrite excel_row_ok in Hrun. simpl in Hrun.
    cbn [filter]. cbn [List.length] in Hb.
    destruct (skipped onlyAlive r) eqn:Hs; cbn [negb].
    + apply IH in Hrun; [exact Hrun | lia..].
    + unfold MaxInt in *. apply IH in Hrun; cbn [xl_data AliveDomains DeadDomains] in *.
      * cbn [filter]. destruct (Alive r); cbn [negb List.length];
          rewrite int64_small in Hrun by (unfold MaxInt; lia); lia.
      * destruct (Alive r); [rewrite int64_small by (unfold MaxInt; lia)|]; lia.
      * destruct (Alive r); [|rewrite int64_small by (unfold MaxInt; lia)]; lia.
      * destruct (Alive r); rewrite int64_small by (unfold MaxInt; lia); lia.
Qed.

(** The HTML loop counts the kept rows and the alive ones among them. *)
Lemma html_rows_counts onlyAlive results : forall data data',
  (0 <= AliveDomains data <= TotalDomains data)%Z ->
  (TotalDomains data + Z.of_nat (List.length results) <= MaxInt)%Z ->
  html_rows onlyAlive results data = Ok data' ->
  TotalDomains data' =
    (TotalDomains data + Z.of_nat (List.length (kept onlyAlive results)))%Z /\
  AliveDomains data' =
    (AliveDomains data + aliveCount (kept onlyAlive results))%Z /\
  DeadDomains data' = DeadDomains data.
Proof.
  unfold aliveCount, kept.
  induction results as [|r rest IH]; intros data data' Ha Hb Hrun.
  - simpl in *. inversion Hrun; subst. lia.
  - simpl in Hrun. rewrite html_row_ok in Hrun. simpl in Hrun.
    cbn [filter]. cbn [List.length] in Hb.
    destruct (skipped onlyAlive r) eqn:Hs; cbn [negb].
    + apply IH in Hrun; [exact Hrun | lia..].
    + unfold MaxInt in *. apply IH in Hrun; cbn [TotalDomains AliveDomains DeadDomains] in *.
      * cbn [filter]. destruct (Alive r); cbn [negb List.length];
          rewrite ?int64_small in Hrun by (unfold MaxInt; lia); lia.
      * destruct (Alive r); rewrite ?int64_small by (unfold MaxInt; lia); lia.
      * rewrite int64_small by (unfold MaxInt; lia); lia.
Qed.

(** What the HTML writer hands to the template adds up, for either value of
    the filter. *)
Lemma html_counts_add_up results onlyAlive data :
  (Z.of_nat (List.length results) <= MaxInt)%Z ->
  simpleHTMLData results onlyAlive = Ok data ->
  TotalDomains data = (AliveDomains data + DeadDomains data)%Z /\
  TotalDomains data = Z.of_nat (List.length (kept onlyAlive results)).
Proof.
  intros Hlen Hrun. unfold simpleHTMLData in Hrun.
  match type of Hrun with context [html_rows _ _ ?d] =>
    destruct (html_rows_ok onlyAlive results d) as (d' & H1 & _);
    destruct (html_rows_counts onlyAlive results d d') as (Ht & Ha & _);
    [simpl; lia | simpl; lia | exact H1 |] end.
  rewrite H1 in Hrun. simpl in Hrun, Ht, Ha. inversion Hrun; subst; clear Hrun.
  cbn [TotalDomains AliveDomains DeadDomains].
  assert (Hal : (0 <= aliveCount (kept onlyAlive results)
                 <= Z.of_nat (List.length (kept onlyAlive results)))%Z).
  { pose proof (counts_split (kept onlyAlive results)).
    unfold aliveCount, deadCount in *. lia. }
  pose proof (kept_length onlyAlive results).
  rewrite int64_small by (unfold MaxInt in *; lia). lia.
Qed.

(** In the spreadsheet writer the two tallies add up to the number of kept
    rows, while [TotalDomains] is the number of all rows. *)
Lemma excel_counts results onlyAlive st :
  (Z.of_nat (List.length results) <= MaxInt)%Z ->
  excelLoop results onlyAlive = Ok st ->
  (AliveDomains (xl_data st) + DeadDomains (xl_data st))%Z =
    Z.of_nat (List.length (kept onlyAlive results)) /\
  TotalDomains (xl_data st) = Z.of_nat (List.length results).
Proof.
  intros Hlen Hrun. unfold excelLoop in Hrun.
  destruct (excel_rows_ok onlyAlive results (excel_prologue results))
    as (st' & H1 & _ & H3).
  rewrite H1 in Hrun. inversion Hrun; subst st'; clear Hrun.
  destruct (excel_rows_counts onlyAlive results (excel_prologue results) st)
    as [Ha Hd]; [simpl; lia | simpl; lia | simpl; lia | exact H1 |].
  simpl in Ha, Hd, H3. rewrite Ha, Hd, H3.
  pose proof (counts_split (kept onlyAlive results)). lia.
Qed.

(** Without the filter the spreadsheet's counts add up as well. *)
Lemma excel_counts_add_up_unfiltered results st :
  (Z.of_nat (List.length results) <= MaxInt)%Z ->
  excelLoop results false = Ok st ->
  TotalDomains (xl_data st) =
    (AliveDomains (xl_data st) + DeadDomains (xl_data st))%Z.
Proof.
  intros Hlen Hrun. destruct (excel_counts results false st Hlen Hrun) as [H1 H2].
  rewrite H1, H2. unfold kept, skipped. simpl.
  f_equal. f_equal. symmetry. apply forallb_filter_id.
  apply forallb_forall. reflexivity.
Qed.

(** C1, at the failing input: with the filter on and one dead result the
    spreadsheet writer leaves [TotalDomains] at 1 while both tallies stay
    at 0. *)
Theorem excel_total_counts_filtered_rows :
  exists st,
    excelLoop [Sample.down "b.example"] true = Ok st /\
    TotalDomains (xl_data st) = 1%Z /\
    AliveDomains (xl_data st) = 0%Z /\
    DeadDomains (xl_data st) = 0%Z /\
    TotalDomains (xl_data st) <>
      (AliveDomains (xl_data st) + DeadDomains (xl_data st))%Z.
Proof.
  unfold excelLoop. cbn [excel_rows]. rewrite excel_row_ok. simpl.
  eexists. split; [reflexivity|]. simpl. repeat split; discriminate.
Qed.

(** *** Titles *)

Lemma decodeTitle_unchanged title :
  nonempty title = false \/ utf8_ValidString title = true ->
  decodeTitle title = title.
Proof.
  unfold decodeTitle. intros [H|H]; rewrite H; [reflexivity|].
  destruct (nonempty title); reflexivity.
Qed.

Lemma decodeTitle_decodes title :
  nonempty title = true -> utf8_ValidString title = false ->
  decodeTitle title =
    match GBK_decode title with Some d => d | None => title end.
Proof. unfold decodeTitle. intros -> ->. reflexivity. Qed.

(** The spreadsheet cell [F] of a row receives the title as it came. *)
Remark excel_title_cell row screenshotRow pageType result :
  In (SetCellValue sheetName (cell "F" row) (VString (Title result)))
     (fst (excelCalls row screenshotRow pageType result)).
Proof. unfold excelCalls. simpl. tauto. Qed.

(** C6. A title that is empty or valid UTF-8 passes through unchanged; any
    other title is replaced by its GBK decoding when the decoder succeeds
    and kept as it is when the decoder fails. Either way the spreadsheet and
    HTML writers go on: they never fault, and their data holds one entry
    for each kept row, in order, with that title. *)
Theorem titles_are_decoded_best_effort results onlyAlive :
  (forall title,
     (nonempty title = false \/ utf8_ValidString title = true ->
      decodeTitle title = title) /\
     (nonempty title = true -> utf8_ValidString title = false ->
      forall d, GBK_decode title = Some d -> decodeTitle title = d) /\
     (nonempty title = true -> utf8_ValidString title = false ->
      GBK_decode title = None -> decodeTitle title = title)) /\
  (exists st,
     excelLoop results onlyAlive = Ok st /\
     map tr_Title (Results (xl_data st)) =
       map (fun result => decodeTitle (Title result)) (kept onlyAlive results)) /\
  (exists data,
     simpleHTMLData results onlyAlive = Ok data /\
     map tr_Title (Results data) =
       map (fun result => decodeTitle (Title result)) (kept onlyAlive results)).
Proof.
  split; [|split].
  - intros title. split; [apply decodeTitle_unchanged|].
    split; intros Hne Hinv.
    + intros d Hd. rewrite decodeTitle_decodes, Hd by assumption. reflexivity.
    + intros Hd. rewrite decodeTitle_decodes, Hd by assumption. reflexivity.
  - destruct (excelLoop_ok results onlyAlive) as (st & H1 & H2 & _).
    exists st. split; [exact H1|]. rewrite H2, map_map. reflexivity.
  - destruct (simpleHTMLData_ok results onlyAlive) as (data & H1 & H2).
    exists data. split; [exact H1|]. rewrite H2, map_map. reflexivity.
Qed.

(** *** Absent page info *)

(** Row by row: no writer faults on any list of results, and a result whose
    [PageInfo] is nil is rendered by [SaveResultsToFile] and
    [SaveResultsToExcel] with an empty page type and by
    [SaveResultsToSimpleHTML] with the page type [-]. *)
Theorem absent_page_info_is_safe results filename onlyAlive result st data :
  PageInfo result = None ->
  (exists out, SaveResultsToFile results filename = Ok out) /\
  (exists out, SaveResultsToExcel results filename onlyAlive = Ok out) /\
  (exists out, SaveResultsToSimpleHTML results filename onlyAlive = Ok out) /\
  csv_row result =
    Ok (Domain result ++ "," ++ StatusText result ++ "," ++
        itoa (Status result) ++ "," ++
        fmt_2f (Milliseconds (ResponseTime result)) ++ "," ++
        "" ++ "," ++
        ReplaceAll (Title result) "," " " ++ "," ++
        ReplaceAll (Message result) "," " " ++ nl) /\
  (exists st',
     excel_row onlyAlive st result = Ok st' /\
     if skipped onlyAlive result then st' = st
     else
       In (SetCellValue sheetName (cell "E" (xl_row st)) (VString ""))
          (xl_f st') /\
       map tr_PageType (Results (xl_data st')) =
         (map tr_PageType (Results (xl_data st)) ++ [""])%list) /\
  (exists data',
     html_row onlyAlive data result = Ok data' /\
     if skipped onlyAlive result then data' = data
     else
       map tr_PageType (Results data') =
         (map tr_PageType (Results data) ++ ["-"])%list).
Proof.
  intros Hnil.
  split; [apply SaveResultsToFile_total|].
  split; [apply SaveResultsToExcel_total|].
  split; [apply SaveResultsToSimpleHTML_total|].
  split; [|split].
  - rewrite csv_row_ok. unfold csvLine, shownPageType. rewrite Hnil. reflexivity.
  - rewrite excel_row_ok. eexists. split; [reflexivity|].
    unfold shownPageType. rewrite Hnil.
    destruct (skipped onlyAlive result); [reflexivity|].
    cbn [xl_f xl_data Results]. split.
    + apply in_or_app. right. unfold excelCalls. simpl. tauto.
    + rewrite map_app. reflexivity.
  - rewrite html_row_ok. eexists. split; [reflexivity|].
    unfold shownPageType. rewrite Hnil.
    destruct (skipped onlyAlive result); [reflexivity|].
    cbn [Results]. rewrite map_app. reflexivity.
Qed.

(** *** The two HTML entry points *)

(** C8. [SaveResultsToHTML] is [SaveResultsToSimpleHTML]: the same
    returned value and the same writes, on every input. *)
Theorem SaveResultsToHTML_is_SaveResultsToSimpleHTML results filename onlyAlive :
  SaveResultsToHTML results filename onlyAlive =
  SaveResultsToSimpleHTML results filename onlyAlive.
Proof. reflexivity. Qed.

(** *** The CSV file *)

(** When the file cannot be created the writer returns the error and
    writes nothing. *)
Lemma SaveResultsToFile_create_fails results filename err :
  os_Create filename = Some err ->
  SaveResultsToFile results filename = Ok (Some err, None).
Proof. unfold SaveResultsToFile. intros ->. reflexivity. Qed.


(** *** Data URIs *)

(** C10. [screenshotToDataURI] returns the empty string for the empty path
    and for a path that can be read neither as it is nor joined to [.];
    otherwise it returns [data:], the MIME type, [;base64,] and the encoded
    bytes, where the MIME type follows the lowercased extension: [.png],
    [.gif] and [.webp] have their own, every other one is [image/jpeg]. *)
Theorem screenshotToDataURI_spec :
  screenshotToDataURI "" = "" /\
  (forall path,
     os_ReadFile path = None ->
     os_ReadFile (filepath_Join "." path) = None ->
     screenshotToDataURI path = "") /\
  (forall path data,
     nonempty path = true ->
     os_ReadFile path = Some data \/
     (os_ReadFile path = None /\
      os_ReadFile (filepath_Join "." path) = Some data) ->
     screenshotToDataURI path =
       "data:" ++ mimeTypeOf (strings_ToLower (filepath_Ext path)) ++
       ";base64," ++ base64_EncodeToString data) /\
  mimeTypeOf ".png" = "image/png" /\
  mimeTypeOf ".gif" = "image/gif" /\
  mimeTypeOf ".webp" = "image/webp" /\
  (forall ext,
     ext <> ".png" -> ext <> ".gif" -> ext <> ".webp" ->
     mimeTypeOf ext = "image/jpeg").
Proof.
  split; [reflexivity|]. split; [|split].
  - intros path H1 H2. unfold screenshotToDataURI. rewrite H1, H2.
    destruct (nonempty path); reflexivity.
  - intros path data Hne Hread. unfold screenshotToDataURI, mimeTypeOf.
    rewrite Hne. simpl.
    destruct Hread as [H|[H1 H2]]; [rewrite H | rewrite H1, H2]; reflexivity.
  - repeat split. intros ext H1 H2 H3. unfold mimeTypeOf.
    apply String.eqb_neq in H1, H2, H3. rewrite H1, H2, H3. reflexivity.
Qed.

End WithPlatform.


(** *** The theorems at work *)

Example csv_of_two_results :
  SaveResultsToFile (P := Sample.bare)
    [Sample.up "a.example"; Sample.down "b.example"] "out.csv" =
  Ok (None,
      Some [csv_header;
            "a.example,OK,200,12.00,login,Hi  there," ++ nl;
            "b.example,dead,0,0.00,,,dial tcp: timeout  retry" ++ nl]).
Proof. reflexivity. Qed.

Example html_counts_of_two_results :
  exists data,
    simpleHTMLData (P := Sample.bare)
      [Sample.up "a.example"; Sample.down "b.example"] true = Ok data /\
    (TotalDomains data, AliveDomains data, DeadDomains data) = (1, 1, 0)%Z.
Proof. eexists. split; reflexivity. Qed.

Example excel_counts_of_two_results :
  exists st,
    excelLoop (P := Sample.bare)
      [Sample.up "a.example"; Sample.down "b.example"] true = Ok st /\
    (TotalDomains (xl_data st), AliveDomains (xl_data st),
     DeadDomains (xl_data st)) = (2, 1, 0)%Z.
Proof. eexists. split; reflexivity. Qed.

Lemma titles_are_decoded_best_effort_witness :
  nonempty Sample.ni_gbk = true /\
  utf8_ValidString (Platform := Sample.with_gbk) Sample.ni_gbk = false /\
  GBK_decode (Platform := Sample.with_gbk) Sample.ni_gbk = Some Sample.ni_utf8 /\
  decodeTitle (P := Sample.with_gbk) Sample.ni_gbk = Sample.ni_utf8.
Proof.
  assert (H1 : nonempty Sample.ni_gbk = true) by reflexivity.
  assert (H2 : utf8_ValidString (Platform := Sample.with_gbk) Sample.ni_gbk = false)
    by reflexivity.
  assert (H3 : GBK_decode (Platform := Sample.with_gbk) Sample.ni_gbk
               = Some Sample.ni_utf8) by reflexivity.
  split; [exact H1|]. split; [exact H2|]. split; [exact H3|].
  exact (proj1 (proj2 (proj1
           (titles_are_decoded_best_effort (P := Sample.with_gbk) [] false)
           Sample.ni_gbk)) H1 H2 Sample.ni_utf8 H3).
Defined.

(** A title that the decoder rejects stays, and the row is still there. *)
Example undecodable_title_is_kept :
  exists data,
    simpleHTMLData (P := Sample.bare)
      [Sample.titled Sample.ni_gbk; Sample.titled "plain"] false = Ok data /\
    map tr_Title (Results data) = [Sample.ni_gbk; "plain"].
Proof. eexists. split; reflexivity. Qed.

Example decodable_title_is_decoded :
  exists st,
    excelLoop (P := Sample.with_gbk) [Sample.titled Sample.ni_gbk] false = Ok st /\
    map tr_Title (Results (xl_data st)) = [Sample.ni_utf8].
Proof. eexists. split; reflexivity. Qed.

Lemma absent_page_info_is_safe_witness :
  PageInfo (Sample.down "b.example") = None /\
  (exists out,
     SaveResultsToFile (P := Sample.bare)
       [Sample.up "a.example"; Sample.down "b.example"] "out" = Ok out) /\
  (exists out,
     SaveResultsToExcel (P := Sample.bare)
       [Sample.up "a.example"; Sample.down "b.example"] "out" false = Ok out) /\
  (exists out,
     SaveResultsToSimpleHTML (P := Sample.bare)
       [Sample.up "a.example"; Sample.down "b.example"] "out" false = Ok out) /\
  csv_row (Sample.down "b.example") =
    Ok (Domain (Sample.down "b.example") ++ "," ++
        StatusText (Sample.down "b.example") ++ "," ++
        itoa (Status (Sample.down "b.example")) ++ "," ++
        fmt_2f (Milliseconds (ResponseTime (Sample.down "b.example"))) ++ "," ++
        "" ++ "," ++
        ReplaceAll (Title (Sample.down "b.example")) "," " " ++ "," ++
        ReplaceAll (Message (Sample.down "b.example")) "," " " ++ nl) /\
  (exists st',
     excel_row (P := Sample.bare) false (excel_prologue (P := Sample.bare) [])
       (Sample.down "b.example") = Ok st' /\
     if skipped false (Sample.down "b.example")
     then st' = excel_prologue (P := Sample.bare) []
     else
       In (SetCellValue sheetName
             (cell "E" (xl_row (excel_prologue (P := Sample.bare) [])))
             (VString ""))
          (xl_f st') /\
       map tr_PageType (Results (xl_data st')) =
         (map tr_PageType
            (Results (xl_data (excel_prologue (P := Sample.bare) []))) ++ [""])%list) /\
  (exists data',
     html_row (P := Sample.bare) false
       {| TotalDomains := 0; AliveDomains := 0; DeadDomains := 0;
          ReportTime := ""; Results := [] |}
       (Sample.down "b.example") = Ok data' /\
     if skipped false (Sample.down "b.example")
     then data' = {| TotalDomains := 0; AliveDomains := 0; DeadDomains := 0;
                     ReportTime := ""; Results := [] |}
     else
       map tr_PageType (Results data') =
         (map tr_PageType
            (Results {| TotalDomains := 0; AliveDomains := 0; DeadDomains := 0;
                        ReportTime := ""; Results := [] |}) ++ ["-"])%list).
Proof.
  assert (H : PageInfo (Sample.down "b.example") = None) by reflexivity.
  split; [exact H|].
  exact (absent_page_info_is_safe (P := Sample.bare)
           [Sample.up "a.example"; Sample.down "b.example"] "out" false
           (Sample.down "b.example") (excel_prologue (P := Sample.bare) [])
           {| TotalDomains := 0; AliveDomains := 0; DeadDomains := 0;
              ReportTime := ""; Results := [] |} H).
Defined.


Lemma screenshotToDataURI_spec_witness :
  nonempty "screenshots/a.PNG" = true /\
  os_ReadFile (Platform := Sample.one_file) "screenshots/a.PNG" = Some "hi" /\
  screenshotToDataURI (P := Sample.one_file) "screenshots/a.PNG" =
    "data:" ++
    mimeTypeOf (strings_ToLower (Platform := Sample.one_file)
                  (filepath_Ext (Platform := Sample.one_file) "screenshots/a.PNG")) ++
    ";base64," ++ base64_EncodeToString (Platform := Sample.one_file) "hi".
Proof.
  assert (H1 : nonempty "screenshots/a.PNG" = true) by reflexivity.
  assert (H2 : os_ReadFile (Platform := Sample.one_file) "screenshots/a.PNG"
               = Some "hi") by reflexivity.
  split; [exact H1|]. split; [exact H2|].
  exact (proj1 (proj2 (proj2 (screenshotToDataURI_spec (P := Sample.one_file))))
           "screenshots/a.PNG" "hi" H1 (or_introl H2)).
Defined.

Example data_uri_of_png :
  screenshotToDataURI (P := Sample.one_file) "screenshots/a.PNG" =
  "data:image/png;base64,aGk=".
Proof. reflexivity. Qed.

Example data_uri_of_missing_file :
  screenshotToDataURI (P := Sample.one_file) "screenshots/b.png" = "".
Proof. reflexivity. Qed.

End ViewFacts.

(** ** The Dispatcher *)

Module DispatcherFacts.
Import checker Dispatcher.

Lemma Domain_result_of d o : Domain (result_of d o) = d.
Proof. destruct o; reflexivity. Qed.

(** Taking the [i]-th element out of a list. *)
Lemma take_out {A : Type} (l : list A) : forall i d,
  nth_error l i = Some d ->
  exists l1 l2, l = l1 ++ d :: l2 /\ firstn i l ++ skipn (S i) l = l1 ++ l2.
Proof.
  induction l as [|x l IH]; intros [|i] d H; simpl in H; try discriminate.
  - inversion H; subst. exists [], l. auto.
  - apply IH in H as (l1 & l2 & H1 & H2).
    exists (x :: l1), l2. split; [simpl; congruence|].
    change (x :: (firstn i l ++ skipn (S i) l) = x :: (l1 ++ l2)).
    rewrite H2. reflexivity.
Qed.

(** The domains of a state: those waiting, those in a slot and those that
    have their Result. *)
Lemma step_keeps_domains W st a st' :
  step W st a = Some st' ->
  Permutation (pending st' ++ slots st' ++ map Domain (results st'))
              (pending st ++ slots st ++ map Domain (results st)).
Proof.
  destruct a as [|i o]; unfold step.
  - destruct (pending st) as [|d rest]; [discriminate|].
    destruct (Nat.ltb _ W); [|discriminate].
    intros H; inversion H; subst; clear H. simpl.
    rewrite <- app_assoc. simpl.
    rewrite (app_assoc rest), (app_assoc rest (slots st)).
    symmetry. apply Permutation_middle.
  - destruct (nth_error (slots st) i) as [d|] eqn:Hnth; [|discriminate].
    apply take_out in Hnth as (l1 & l2 & Hslots & Hout).
    rewrite Hout. intros [= <-].
    cbn [pending slots results].
    apply Permutation_app_head. rewrite Hslots.
    rewrite map_app. cbn [map]. rewrite Domain_result_of.
    rewrite <- !app_assoc. apply Permutation_app_head.
    simpl. rewrite app_assoc. symmetry. apply Permutation_cons_append.
Qed.

Lemma exec_keeps_domains W sched : forall st st',
  exec W sched st = Some st' ->
  Permutation (pending st' ++ slots st' ++ map Domain (results st'))
              (pending st ++ slots st ++ map Domain (results st)).
Proof.
  induction sched as [|a rest IH]; intros st st' H; simpl in H.
  - inversion H; subst. reflexivity.
  - destruct (step W st a) as [st1|] eqn:Hstep; [|discriminate].
    etransitivity; [apply IH; exact H | eapply step_keeps_domains; exact Hstep].
Qed.

(** No more than [W] checks are in flight. *)
Lemma step_bounds_slots W st a st' :
  (List.length (slots st) <= W)%nat ->
  step W st a = Some st' ->
  (List.length (slots st') <= W)%nat.
Proof.
  intros Hb. destruct a as [|i o]; unfold step.
  - destruct (pending st) as [|d rest]; [discriminate|].
    destruct (Nat.ltb _ W) eqn:Hlt; [|discriminate].
    intros [= <-]. cbn [slots].
    apply Nat.ltb_lt in Hlt. rewrite length_app. simpl. lia.
  - destruct (nth_error (slots st) i) as [d|] eqn:Hnth; [|discriminate].
    apply take_out in Hnth as (l1 & l2 & Hslots & Hout).
    rewrite Hout. intros [= <-]. cbn [slots].
    rewrite Hslots in Hb. rewrite length_app in *. simpl in Hb. lia.
Qed.

(** With at least one slot an unfinished run can always go on. *)
Lemma never_stuck W st :
  (1 <= W)%nat -> (List.length (slots st) <= W)%nat ->
  finished st = false ->
  exists a st', step W st a = Some st'.
Proof.
  intros HW Hb Hfin. destruct (slots st) as [|d ds] eqn:Hslots.
  - destruct (pending st) as [|p ps] eqn:Hpend.
    + unfold finished in Hfin. rewrite Hpend, Hslots in Hfin. discriminate.
    + exists Start. simpl. rewrite Hpend, Hslots. simpl.
      destruct (Nat.ltb_spec 0 W); [eauto | lia].
  - exists (Finish 0 (Faulted EmptyString)). simpl. rewrite Hslots. simpl. eauto.
Qed.

(** Every step brings the end nearer: a run of [M] domains finishes after
    exactly [2 * M] steps. *)
Lemma exec_counts_steps W sched : forall st st',
  exec W sched st = Some st' ->
  (List.length sched + 2 * List.length (pending st') + List.length (slots st') =
   2 * List.length (pending st) + List.length (slots st))%nat.
Proof.
  induction sched as [|a rest IH]; intros st st' H; simpl in H.
  - inversion H; subst. reflexivity.
  - destruct (step W st a) as [st1|] eqn:Hstep; [|discriminate].
    apply IH in H. cbn [List.length].
    destruct a as [|i o]; unfold step in Hstep.
    + destruct (pending st) as [|d ps]; [discriminate|].
      destruct (Nat.ltb _ W); [|discriminate].
      injection Hstep as <-. cbn [pending slots] in H.
      rewrite length_app in H. simpl in H. simpl. lia.
    + destruct (nth_error (slots st) i) as [d|] eqn:Hnth; [|discriminate].
      apply take_out in Hnth as (l1 & l2 & Hslots & Hout).
      rewrite Hout in Hstep. injection Hstep as <-. cbn [pending slots] in H.
      rewrite Hslots. rewrite length_app in *. simpl. lia.
Qed.

Lemma sequential_runs W o domains : forall rs,
  (1 <= W)%nat ->
  exec W (sequential o domains)
    {| pending := domains; slots := []; results := rs |} =
  Some {| pending := []; slots := [];
          results := rs ++ map (fun d => result_of d (o d)) domains |}.
Proof.
  induction domains as [|d rest IH]; intros rs HW; simpl.
  - rewrite app_nil_r. reflexivity.
  - destruct (Nat.ltb_spec 0 W); [|lia]. simpl.
    rewrite IH by assumption. rewrite <- app_assoc. reflexivity.
Qed.

Lemma exec_app W s1 : forall s2 st,
  exec W (s1 ++ s2) st =
  match exec W s1 st with
  | Some st1 => exec W s2 st1
  | None => None
  end.
Proof.
  induction s1 as [|a s1 IH]; intros s2 st; simpl; [reflexivity|].
  destruct (step W st a); [apply IH | reflexivity].
Qed.

Lemma exec_bounds_slots W sched : forall st st',
  (List.length (slots st) <= W)%nat ->
  exec W sched st = Some st' ->
  (List.length (slots st') <= W)%nat.
Proof.
  induction sched as [|a rest IH]; intros st st' Hb H; simpl in H.
  - inversion H; subst. exact Hb.
  - destruct (step W st a) as [st1|] eqn:Hstep; [|discriminate].
    eapply IH; [eapply step_bounds_slots; eauto | exact H].
Qed.

(** From any state of a pool with at least one slot the run can be
    brought to its end. *)
Lemma can_finish W (HW : (1 <= W)%nat) : forall n st,
  (2 * List.length (pending st) + List.length (slots st) <= n)%nat ->
  (List.length (slots st) <= W)%nat ->
  exists more st', exec W more st = Some st' /\ finished st' = true.
Proof.
  induction n as [|n IH]; intros st Hn Hb.
  - exists [], st. split; [reflexivity|]. unfold finished.
    destruct (pending st); [|simpl in Hn; lia].
    destruct (slots st); [reflexivity | simpl in Hn; lia].
  - destruct (finished st) eqn:Hfin.
    + exists [], st. auto.
    + destruct (never_stuck W st HW Hb Hfin) as (a & st1 & Hstep).
      assert (Hone : exec W [a] st = Some st1) by (simpl; rewrite Hstep; reflexivity).
      pose proof (exec_counts_steps W [a] st st1 Hone) as Hm. simpl in Hm.
      destruct (IH st1) as (more & st' & Hrun & Hend);
        [lia | eapply step_bounds_slots; eauto |].
      exists (a :: more), st'. simpl. rewrite Hstep. auto.
Qed.

(** C4. With at least one slot every run of the Dispatcher can be brought
    to its end, whatever has been scheduled so far; and however the checks
    are scheduled and in whatever order they complete, a finished run holds
    exactly as many Results as there are domains, and their domains are the
    input domains, each as often as it was given. *)
Theorem dispatcher_one_result_per_domain W domains :
  (1 <= W)%nat ->
  (forall sched st,
     exec W sched (init domains) = Some st ->
     exists more st',
       exec W (sched ++ more) (init domains) = Some st' /\ finished st' = true) /\
  (forall sched st,
     exec W sched (init domains) = Some st -> finished st = true ->
     List.length (results st) = List.length domains /\
     Permutation (map Domain (results st)) domains).
Proof.
  intros HW. split.
  - intros sched st Hexec.
    assert (Hb : (List.length (slots st) <= W)%nat)
      by (eapply exec_bounds_slots; [|exact Hexec]; simpl; lia).
    destruct (can_finish W HW _ st (Nat.le_refl _) Hb) as (more & st' & Hrun & Hend).
    exists more, st'. rewrite exec_app, Hexec. auto.
  - intros sched st Hexec Hfin.
    apply exec_keeps_domains in Hexec. unfold finished in Hfin.
    destruct (pending st); [|discriminate].
    destruct (slots st); [|discriminate].
    simpl in Hexec. rewrite app_nil_r in Hexec.
    split; [|exact Hexec].
    apply Permutation_length in Hexec. rewrite length_map in Hexec. exact Hexec.
Qed.

Lemma dispatcher_one_result_per_domain_witness :
  (1 <= 2)%nat /\
  (forall sched st,
     exec 2 sched (init ["ok.example"; "timeout.example"; "bad!!domain"]%string)
       = Some st ->
     exists more st',
       exec 2 (sched ++ more)
         (init ["ok.example"; "timeout.example"; "bad!!domain"]%string) = Some st' /\
       finished st' = true) /\
  (forall sched st,
     exec 2 sched (init ["ok.example"; "timeout.example"; "bad!!domain"]%string)
       = Some st ->
     finished st = true ->
     List.length (results st) =
       List.length ["ok.example"; "timeout.example"; "bad!!domain"]%string /\
     Permutation (map Domain (results st))
       ["ok.example"; "timeout.example"; "bad!!domain"]%string).
Proof.
  assert (H : (1 <= 2)%nat) by lia.
  split; [exact H|].
  exact (dispatcher_one_result_per_domain 2
           ["ok.example"; "timeout.example"; "bad!!domain"]%string H).
Defined.

(** Two slots, the second check completing first and the third faulting:
    three Results, in completion order. *)
Example dispatcher_out_of_order :
  option_map (fun st => map Domain (results st))
    (exec 2
       [Start; Start;
        Finish 1 (Checked false 0 "timeout" 2000000000 None "" "timeout" "");
        Start;
        Finish 1 (Faulted "invalid domain");
        Finish 0 (Checked true 200 "OK" 1000000 None "" "" "")]
       (init ["ok.example"; "timeout.example"; "bad!!domain"]))%string =
  Some ["timeout.example"; "bad!!domain"; "ok.example"]%string.
Proof. reflexivity. Qed.

(** Without a slot nothing can start. *)
Example dispatcher_needs_a_slot :
  step 0 (init ["ok.example"%string]) Start = None.
Proof. reflexivity. Qed.

End DispatcherFacts.

(** ** More on the progress reporter *)

Module ProgressMore.
Import Progress ProgressFacts.

(** X1. While the total fits an [int32] and no event is a terminating one,
    the goroutine keeps running and has printed exactly one line for each
    tick, holding the counter as that tick found it. *)
Theorem ticks_print_until_terminating total c0 tr :
  in_int32 total -> in_int32 c0 ->
  undisturbed total tr (ShowProgress c0) = true ->
  running (reporter (run total tr (ShowProgress c0))) = true /\
  printed (run total tr (ShowProgress c0)) = lines_of total tr c0.
Proof.
  intros Ht Hc Hund.
  destruct (reporter_runs_until_then total tr (ShowProgress c0) Ht Hc eq_refl Hund)
    as [Hrun Hprint].
  split; [exact Hrun|]. rewrite Hprint. reflexivity.
Qed.

Lemma ticks_print_until_terminating_witness :
  in_int32 3 /\ in_int32 0 /\
  undisturbed 3 [TickerC; AtomicAddInt32 1; TickerC; AtomicAddInt32 1; TickerC]
    (ShowProgress 0) = true /\
  running (reporter (run 3
    [TickerC; AtomicAddInt32 1; TickerC; AtomicAddInt32 1; TickerC]
    (ShowProgress 0))) = true /\
  printed (run 3 [TickerC; AtomicAddInt32 1; TickerC; AtomicAddInt32 1; TickerC]
    (ShowProgress 0)) =
  lines_of 3 [TickerC; AtomicAddInt32 1; TickerC; AtomicAddInt32 1; TickerC] 0.
Proof.
  assert (H1 : in_int32 3) by (unfold in_int32; simpl; lia).
  assert (H2 : in_int32 0) by (unfold in_int32; simpl; lia).
  assert (H3 : undisturbed 3
    [TickerC; AtomicAddInt32 1; TickerC; AtomicAddInt32 1; TickerC]
    (ShowProgress 0) = true) by reflexivity.
  split; [exact H1|]. split; [exact H2|]. split; [exact H3|].
  exact (ticks_print_until_terminating 3 0
           [TickerC; AtomicAddInt32 1; TickerC; AtomicAddInt32 1; TickerC] H1 H2 H3).
Defined.

Example three_lines_of_progress :
  printed (run 3 [TickerC; AtomicAddInt32 1; TickerC; AtomicAddInt32 1; TickerC]
    (ShowProgress 0)) = [Printf 0 3; Printf 1 3; Printf 2 3].
Proof. reflexivity. Qed.

Lemma step_well_ended total w ev :
  well_ended (reporter w) -> well_ended (reporter (step total w ev)).
Proof.
  intros (body & Heff & Hbody). unfold well_ended.
  destruct ev; cbn [step reporter].
  - destruct (running (reporter w)) eqn:Hrun;
      [|exists body; rewrite Hrun; auto].
    cbn [reporter]. rewrite app_nil_r in Heff. unfold on_tick, ret, emit.
    destruct (int32 total <=? processed w); cbn [running effects]; rewrite Heff.
    + exists (body ++ [LoadInt32 (processed w)]). split; [reflexivity|].
      apply Forall_app. split; [exact Hbody | repeat constructor].
    + exists (body ++ [LoadInt32 (processed w);
                       Float64Div (processed w) total; Printf (processed w) total]).
      rewrite Hrun, app_nil_r, <- app_assoc. split; [reflexivity|].
      apply Forall_app. split; [exact Hbody | repeat constructor].
  - destruct (running (reporter w)) eqn:Hrun;
      [|exists body; rewrite Hrun; auto].
    cbn [reporter]. rewrite app_nil_r in Heff. unfold ret.
    cbn [running effects]. rewrite Heff. exists body. auto.
  - exists body. auto.
Qed.

(** X2. Whatever happens, [progressDone] is closed at most once: the
    deferred [ticker.Stop()] and [close(progressDone)] are the last two
    things a returned goroutine did, in that order, and appear nowhere
    else; a running goroutine has done neither. *)
Theorem progressDone_closed_once total c0 tr :
  exists body,
    effects (reporter (run total tr (ShowProgress c0))) =
      body ++
      (if running (reporter (run total tr (ShowProgress c0)))
       then [] else [TickerStop; CloseProgressDone]) /\
    Forall (fun e => is_deferred e = false) body.
Proof.
  change (well_ended (reporter (run total tr (ShowProgress c0)))).
  assert (H : well_ended (reporter (ShowProgress c0)))
    by (exists []; simpl; auto).
  revert H. generalize (ShowProgress c0).
  induction tr as [|ev tr IH]; intros w H; [exact H|].
  rewrite run_cons. apply IH, step_well_ended, H.
Qed.

Lemma step_below_total total w ev :
  Forall (below_total total) (effects (reporter w)) ->
  Forall (below_total total) (effects (reporter (step total w ev))).
Proof.
  intros H. destruct ev; cbn [step reporter]; try exact H.
  - destruct (running (reporter w)); [|exact H]. cbn [reporter].
    unfold on_tick, ret, emit.
    destruct (int32 total <=? processed w) eqn:Hcmp; cbn [running effects].
    + rewrite <- app_assoc. apply Forall_app. split; [exact H|].
      repeat constructor.
    + apply Z.leb_gt in Hcmp. rewrite <- app_assoc. apply Forall_app.
      split; [exact H|]. repeat constructor; simpl; auto.
  - destruct (running (reporter w)); [|exact H]. cbn [reporter]. unfold ret.
    cbn [effects]. apply Forall_app. split; [exact H | repeat constructor].
Qed.

(** X3. Every progress line the goroutine prints, and every division it
    evaluates, is for a counter below [int32(totalDomains)]: a line for a
    finished run, at 100 percent, is never printed. *)
Theorem lines_stay_below_total total c0 tr :
  Forall (below_total total)
    (effects (reporter (run total tr (ShowProgress c0)))).
Proof.
  assert (H : Forall (below_total total) (effects (reporter (ShowProgress c0))))
    by constructor.
  revert H. generalize (ShowProgress c0).
  induction tr as [|ev tr IH]; intros w H; [exact H|].
  rewrite run_cons. apply IH, step_below_total, H.
Qed.

(** X4. When [int32(totalDomains)] is not positive, which is so for no
    domains and for a total from 2^31 to 2^32 - 1 whose conversion wraps,
    the first wake-up that finds a non-negative counter ends the goroutine
    and no progress line is ever printed. *)
Theorem nonpositive_total_never_prints total c0 pre ev post :
  int32 total <= 0 ->
  Forall (fun e => is_wakeup e = false) pre ->
  is_wakeup ev = true ->
  0 <= processed (run total pre (ShowProgress c0)) ->
  running (reporter (run total (pre ++ [ev]) (ShowProgress c0))) = false /\
  printed (run total (pre ++ ev :: post) (ShowProgress c0)) = [].
Proof.
  intros Ht Hpre Hev Hc.
  assert (Hquiet : forall w, Forall (fun e => is_wakeup e = false) pre ->
            reporter (run total pre w) = reporter w).
  { clear. induction pre as [|e pre IH]; intros w H; [reflexivity|].
    inversion H as [|? ? He Hrest]; subst. rewrite run_cons, IH by assumption.
    destruct e; simpl in He; try discriminate. reflexivity. }
  specialize (Hquiet (ShowProgress c0) Hpre).
  set (w := run total pre (ShowProgress c0)) in *.
  assert (Hstep : running (reporter (step total w ev)) = false /\
                  printed (step total w ev) = []).
  { unfold printed.
    destruct ev; simpl in Hev; try discriminate; simpl; rewrite Hquiet; simpl.
    - unfold on_tick.
      replace (int32 total <=? processed w) with true
        by (symmetry; apply Z.leb_le; lia).
      simpl. auto.
    - auto. }
  destruct Hstep as [Hstop Hnone].
  rewrite !run_app. fold w. simpl run at 1. rewrite run_cons.
  split; [exact Hstop|].
  unfold printed in *. rewrite run_returned by exact Hstop. exact Hnone.
Qed.

Lemma nonpositive_total_never_prints_witness :
  int32 (2 ^ 31) <= 0 /\
  Forall (fun e => is_wakeup e = false) [AtomicAddInt32 1] /\
  is_wakeup TickerC = true /\
  0 <= processed (run (2 ^ 31) [AtomicAddInt32 1] (ShowProgress 0)) /\
  running (reporter (run (2 ^ 31) ([AtomicAddInt32 1] ++ [TickerC])
                       (ShowProgress 0))) = false /\
  printed (run (2 ^ 31) ([AtomicAddInt32 1] ++ TickerC :: [TickerC; DoneChan])
             (ShowProgress 0)) = [].
Proof.
  assert (H1 : int32 (2 ^ 31) <= 0) by (vm_compute; discriminate).
  assert (H2 : Forall (fun e => is_wakeup e = false) [AtomicAddInt32 1])
    by (repeat constructor).
  assert (H3 : is_wakeup TickerC = true) by reflexivity.
  assert (H4 : 0 <= processed (run (2 ^ 31) [AtomicAddInt32 1] (ShowProgress 0)))
    by (vm_compute; discriminate).
  split; [exact H1|]. split; [exact H2|]. split; [exact H3|]. split; [exact H4|].
  exact (nonpositive_total_never_prints (2 ^ 31) 0 [AtomicAddInt32 1] TickerC
           [TickerC; DoneChan] H1 H2 H3 H4).
Defined.

End ProgressMore.

(** ** More on the report writers *)

Module ViewMore.
Import checker view ViewFacts.

Local Open Scope string_scope.

(** *** Counting bytes *)

Lemma count_byte_app c s1 s2 :
  count_byte c (s1 ++ s2) = (count_byte c s1 + count_byte c s2)%nat.
Proof. induction s1 as [|x s1 IH]; simpl; [reflexivity | rewrite IH; lia]. Qed.

Lemma count_comma_uint d :
  count_byte "," (NilEmpty.string_of_uint d) = 0%nat.
Proof. induction d; simpl; assumption || reflexivity. Qed.

(** A printed integer has no comma. *)
Lemma count_comma_itoa n : count_byte "," (itoa n) = 0%nat.
Proof.
  unfold itoa, NilZero.string_of_int, NilZero.string_of_uint.
  destruct (Z.to_int n) as [d|d]; destruct d; simpl;
    try reflexivity; apply count_comma_uint.
Qed.

Lemma count_comma_blanked s : count_byte "," (ReplaceAll s "," " ") = 0%nat.
Proof.
  induction s as [|x s IH]; simpl; [reflexivity|].
  destruct (Ascii.eqb x ",") eqn:E; simpl; [exact IH|]. rewrite E. exact IH.
Qed.

Section WithPlatformMore.
Context {P : Platform}.

(** X5. [screenshotToDataURI] returns the empty string exactly when the
    path is empty or can be read neither as given nor joined to [.]; any
    other result starts with [data:image/]. *)
Theorem data_uri_empty_iff path :
  (screenshotToDataURI path = "" <->
   nonempty path = false \/
   (os_ReadFile path = None /\ os_ReadFile (filepath_Join "." path) = None)) /\
  (screenshotToDataURI path <> "" ->
   HasPrefix (screenshotToDataURI path) "data:image/" = true).
Proof.
  assert (Hshape : forall ext encoded,
            "data:" ++ mimeTypeOf ext ++ ";base64," ++ encoded <> "" /\
            HasPrefix ("data:" ++ mimeTypeOf ext ++ ";base64," ++ encoded)
              "data:image/" = true).
  { intros ext encoded. unfold mimeTypeOf.
    destruct (ext =? ".png"), (ext =? ".gif"), (ext =? ".webp");
      split; reflexivity || discriminate. }
  unfold screenshotToDataURI.
  destruct (nonempty path); cbn [negb].
  2:{ split; [tauto | congruence]. }
  destruct (os_ReadFile path) as [data|].
  - fold (mimeTypeOf (strings_ToLower (filepath_Ext path))). cbv zeta.
    destruct (Hshape (strings_ToLower (filepath_Ext path))
                (base64_EncodeToString data)) as [Hne Hpre].
    split; [|intros _; exact Hpre].
    split; [intros H; contradiction | intros [H|[H _]]; discriminate].
  - destruct (os_ReadFile (filepath_Join "." path)) as [data|].
    + fold (mimeTypeOf (strings_ToLower (filepath_Ext path))). cbv zeta.
      destruct (Hshape (strings_ToLower (filepath_Ext path))
                  (base64_EncodeToString data)) as [Hne Hpre].
      split; [|intros _; exact Hpre].
      split; [intros H; contradiction | intros [H|[_ H]]; discriminate].
    + split; [tauto | congruence].
Qed.

(** X6. A data line of the CSV file has six separating commas and, beyond
    them, only the commas of the domain, of the status text and of the page
    type: seven fields whenever these three have none. The title and the
    message never add one. *)
Theorem csv_line_commas results filename :
  os_Create filename = None ->
  exists lines,
    SaveResultsToFile results filename = Ok (None, Some (csv_header :: lines)) /\
    count_byte "," csv_header = 6%nat /\
    Forall2
      (fun result line =>
         count_byte "," line =
           (6 + count_byte "," (Domain result) +
            count_byte "," (StatusText result) +
            count_byte "," (shownPageType "" result))%nat)
      results lines.
Proof.
  intros Hcreate. unfold SaveResultsToFile. rewrite Hcreate, csv_rows_ok.
  simpl. eexists. split; [reflexivity|]. split; [reflexivity|].
  induction results as [|result rest IH]; simpl; constructor; [|exact IH].
  unfold csvLine, fmt_2f.
  rewrite !count_byte_app, !count_comma_itoa, !count_comma_blanked.
  simpl. lia.
Qed.

(** X8. The hyperlink target of a spreadsheet row is empty exactly when the
    result has no screenshot, and otherwise lies under [screenshots/]. *)
Theorem excelScreenshot_under_screenshots result :
  (excelScreenshot result = "" <-> nonempty (Screenshot result) = false) /\
  (nonempty (Screenshot result) = true ->
   HasPrefix (excelScreenshot result) "screenshots/" = true).
Proof.
  unfold excelScreenshot.
  destruct (nonempty (Screenshot result)); simpl.
  2:{ split; [tauto | discriminate]. }
  destruct (HasPrefix (ReplaceAll _ _ _) "screenshots/") eqn:Hp; simpl.
  - split; [|intros _; exact Hp].
    split; [|discriminate]. intros H. rewrite H in Hp. discriminate.
  - split; [split; discriminate|]. intros _. unfold HasPrefix.
    match goal with |- prefix _ ?x = true => destruct x; reflexivity end.
Qed.

(** X9. The link of a domain always starts with [http://] or [https://];
    a domain that already does is its own link, so making the link of a
    link changes nothing. *)
Theorem domainLinkOf_scheme domain :
  (HasPrefix (domainLinkOf domain) "http://" = true \/
   HasPrefix (domainLinkOf domain) "https://" = true) /\
  (HasPrefix domain "http://" = true \/ HasPrefix domain "https://" = true ->
   domainLinkOf domain = domain) /\
  domainLinkOf (domainLinkOf domain) = domainLinkOf domain.
Proof.
  assert (Hfix : forall d,
            HasPrefix d "http://" = true \/ HasPrefix d "https://" = true ->
            domainLinkOf d = d).
  { intros d [H|H]; unfold domainLinkOf; rewrite H; simpl;
      [reflexivity | rewrite andb_false_r; reflexivity]. }
  assert (Hscheme : HasPrefix (domainLinkOf domain) "http://" = true \/
                    HasPrefix (domainLinkOf domain) "https://" = true).
  { unfold domainLinkOf.
    destruct (HasPrefix domain "http://") eqn:H1; simpl; [left; exact H1|].
    destruct (HasPrefix domain "https://") eqn:H2; simpl; [right; exact H2|].
    left. unfold HasPrefix. destruct domain; reflexivity. }
  split; [exact Hscheme|]. split; [apply Hfix | apply Hfix, Hscheme].
Qed.


(** *** The spreadsheet rows *)

Lemma excel_rows_layout onlyAlive results : forall st,
  xl_screenshotRow st = xl_row st ->
  (- 2 ^ 63 <= xl_row st)%Z ->
  (xl_row st + Z.of_nat (List.length results) <= MaxInt)%Z ->
  exists st',
    excel_rows onlyAlive results st = Ok st' /\
    xl_row st' = (xl_row st + Z.of_nat (List.length (kept onlyAlive results)))%Z /\
    xl_screenshotRow st' = xl_row st' /\
    xl_f st' = (xl_f st ++ excelCallsFrom (xl_row st) (kept onlyAlive results))%list /\
    xl_stdout st' =
      (xl_stdout st ++ excelPrintsFrom (xl_row st) (kept onlyAlive results))%list.
Proof.
  unfold kept.
  induction results as [|r rest IH]; intros st Hsame Hlo Hhi.
  - exists st. simpl. rewrite !app_nil_r. repeat split; auto; lia.
  - cbn [excel_rows]. rewrite excel_row_ok. cbn [bind filter].
    cbn [List.length] in Hhi.
    destruct (skipped onlyAlive r) eqn:Hs; cbn [negb].
    + apply IH; auto; lia.
    + match goal with |- context [excel_rows _ _ ?s] =>
        destruct (IH s) as (st' & H1 & H2 & H3 & H4 & H5) end;
        cbn [xl_row xl_screenshotRow xl_f xl_stdout].
      * rewrite Hsame. reflexivity.
      * rewrite int64_small by lia. lia.
      * rewrite int64_small by lia. lia.
      * exists st'. split; [exact H1|].
        cbn [xl_row xl_screenshotRow xl_f xl_stdout] in H2, H4, H5.
        rewrite int64_small in H2, H4, H5 by lia.
        rewrite Hsame in H4, H5.
        cbn [List.length excelCallsFrom excelPrintsFrom].
        rewrite H2, H4, H5, <- !app_assoc.
        repeat split; auto; lia.
Qed.

(** X10. The kept rows fill consecutive spreadsheet rows from row 2 on, on
    the main sheet and on the screenshot sheet alike: a filtered result
    leaves no gap, and both row cursors end at 2 plus the number of kept
    rows. *)
Theorem excel_rows_are_consecutive results onlyAlive :
  (Z.of_nat (List.length results) + 2 <= MaxInt)%Z ->
  exists st,
    excelLoop results onlyAlive = Ok st /\
    xl_row st = (2 + Z.of_nat (List.length (kept onlyAlive results)))%Z /\
    xl_screenshotRow st = xl_row st /\
    xl_f st =
      (xl_f (excel_prologue results) ++
       excelCallsFrom 2 (kept onlyAlive results))%list /\
    xl_stdout st = excelPrintsFrom 2 (kept onlyAlive results).
Proof.
  intros Hlen. unfold excelLoop.
  destruct (excel_rows_layout onlyAlive results (excel_prologue results))
    as (st & H1 & H2 & H3 & H4 & H5);
    [reflexivity | simpl; lia | cbn [xl_row excel_prologue]; lia |].
  exists st. cbn [xl_row xl_stdout excel_prologue] in *. auto.
Qed.

(** X11. The spreadsheet writer makes the output directory only when the
    directory of the file name is neither empty nor [.]; if that fails it
    returns the wrapped error and never opens a workbook. In every other
    case it returns just what [SaveAs] returned, whatever [AddPicture] and
    [Close] reported, and its last two calls on the workbook are [SaveAs]
    and then [Close]. *)
Theorem excel_returned_error results filename onlyAlive :
  exists out,
    SaveResultsToExcel results filename onlyAlive = Ok out /\
    match
      (if nonempty (filepath_Dir filename) && negb (filepath_Dir filename =? ".")
       then os_MkdirAll (filepath_Dir filename) else None)
    with
    | Some err => out = (Some ("创建输出目录失败: " ++ err), None)
    | None =>
        fst out = excelize_SaveAs filename /\
        exists st calls,
          snd out = Some st /\
          xl_f st = (calls ++ [SaveAs filename; Close])%list
    end.
Proof.
  unfold SaveResultsToExcel.
  destruct (excelLoop_ok results onlyAlive) as (st & Hloop & _).
  rewrite Hloop. cbn [bind].
  destruct (if nonempty (filepath_Dir filename) && negb (filepath_Dir filename =? ".")
            then os_MkdirAll (filepath_Dir filename) else None) as [err|].
  - eexists. split; reflexivity.
  - eexists. split; [reflexivity|]. cbn [fst snd excel_epilogue].
    split; [reflexivity|].
    eexists. eexists. split; [reflexivity|]. cbn [xl_f].
    rewrite app_assoc.
    change [SetColWidth screenshotSheet "A" "A" 40;
            SetColWidth screenshotSheet "B" "B" 200;
            SetPanes sheetName; SetPanes screenshotSheet; SaveAs filename; Close]
      with ([SetColWidth screenshotSheet "A" "A" 40;
             SetColWidth screenshotSheet "B" "B" 200;
             SetPanes sheetName; SetPanes screenshotSheet] ++
            [SaveAs filename; Close])%list.
    rewrite app_assoc. reflexivity.
Qed.

Lemma dead_kept_alive results : deadCount (kept true results) = 0%Z.
Proof.
  unfold deadCount, kept, skipped.
  induction results as [|r rest IH]; [reflexivity|].
  cbn [filter andb]. destruct (Alive r) eqn:Ha; cbn [negb filter]; rewrite ?Ha;
    cbn [negb]; exact IH.
Qed.

(** X12. In the spreadsheet writer [AliveDomains] is the number of kept
    alive rows and [DeadDomains] the number of kept dead rows; together
    they are the number of entries of [data.Results]. With [onlyAlive] set,
    [DeadDomains] is 0 and every entry is alive. *)
Theorem excel_tallies results onlyAlive :
  (Z.of_nat (List.length results) <= MaxInt)%Z ->
  exists st,
    excelLoop results onlyAlive = Ok st /\
    AliveDomains (xl_data st) = aliveCount (kept onlyAlive results) /\
    DeadDomains (xl_data st) = deadCount (kept onlyAlive results) /\
    (AliveDomains (xl_data st) + DeadDomains (xl_data st))%Z =
      Z.of_nat (List.length (Results (xl_data st))) /\
    (onlyAlive = true ->
     DeadDomains (xl_data st) = 0%Z /\
     Forall (fun entry => tr_Alive entry = true) (Results (xl_data st))).
Proof.
  intros Hlen.
  destruct (excelLoop_ok results onlyAlive) as (st & Hloop & Hres & _).
  exists st. split; [exact Hloop|].
  unfold excelLoop in Hloop.
  destruct (excel_rows_counts onlyAlive results (excel_prologue results) st)
    as [Ha Hd]; [simpl; lia | simpl; lia | simpl; lia | exact Hloop |].
  simpl in Ha, Hd. split; [exact Ha|]. split; [exact Hd|]. split.
  - rewrite Ha, Hd, Hres, length_map. apply counts_split.
  - intros ->. split; [rewrite Hd; apply dead_kept_alive|].
    rewrite Hres. apply Forall_map. apply Forall_forall. intros r Hin.
    apply filter_In in Hin as [_ Hk]. unfold skipped in Hk. simpl in Hk.
    apply negb_true_iff, negb_false_iff in Hk. exact Hk.
Qed.

(** Filtering in the loop is filtering the list beforehand. *)
Lemma excel_rows_prefiltered results : forall st,
  excel_rows true results st = excel_rows false (filter Alive results) st.
Proof.
  induction results as [|r rest IH]; intros st; [reflexivity|].
  cbn [excel_rows filter]. destruct (Alive r) eqn:Ha.
  - cbn [excel_rows]. rewrite !excel_row_ok. unfold skipped. rewrite !Ha.
    cbn [andb negb bind]. apply IH.
  - rewrite excel_row_ok. unfold skipped. rewrite !Ha.
    cbn [andb negb bind]. apply IH.
Qed.

Lemma excel_rows_setTotal onlyAlive n results : forall st st',
  excel_rows onlyAlive results st = Ok st' ->
  excel_rows onlyAlive results (setTotal n st) = Ok (setTotal n st').
Proof.
  induction results as [|r rest IH]; intros st st' H.
  - simpl in *. congruence.
  - cbn [excel_rows] in *. rewrite excel_row_ok in *. cbn [bind] in *.
    destruct (skipped onlyAlive r); [apply IH; exact H|].
    apply IH in H. exact H.
Qed.

(** X13. For the spreadsheet writer, setting [onlyAlive] comes to the same
    as handing it the alive results alone, calls, prints, cursors, entries
    and tallies alike, except for [data.TotalDomains], which stays the
    length of the list it was given. *)
Theorem excel_filter_is_prefilter results :
  exists st,
    excelLoop (filter Alive results) false = Ok st /\
    excelLoop results true =
      Ok (setTotal (Z.of_nat (List.length results)) st).
Proof.
  destruct (excelLoop_ok (filter Alive results) false) as (st & Hloop & _).
  exists st. split; [exact Hloop|].
  unfold excelLoop in *. rewrite excel_rows_prefiltered.
  apply (excel_rows_setTotal false (Z.of_nat (List.length results))) in Hloop.
  exact Hloop.
Qed.

(** *** The HTML data *)

Lemma html_rows_prefiltered results : forall data,
  html_rows true results data = html_rows false (filter Alive results) data.
Proof.
  induction results as [|r rest IH]; intros data; [reflexivity|].
  cbn [html_rows filter]. destruct (Alive r) eqn:Ha.
  - cbn [html_rows]. rewrite !html_row_ok. unfold skipped. rewrite !Ha.
    cbn [andb negb bind]. apply IH.
  - rewrite html_row_ok. unfold skipped. rewrite !Ha.
    cbn [andb negb bind]. apply IH.
Qed.

(** X14. What the HTML writer hands to the template is consistent:
    [TotalDomains] is the number of entries of [Results], [AliveDomains]
    and [DeadDomains] are the numbers of alive and of dead rows among the
    kept ones, and the two add up to the total. *)
Theorem html_counts results onlyAlive :
  (Z.of_nat (List.length results) <= MaxInt)%Z ->
  exists data,
    simpleHTMLData results onlyAlive = Ok data /\
    TotalDomains data = Z.of_nat (List.length (Results data)) /\
    AliveDomains data = aliveCount (kept onlyAlive results) /\
    DeadDomains data = deadCount (kept onlyAlive results) /\
    TotalDomains data = (AliveDomains data + DeadDomains data)%Z.
Proof.
  intros Hlen. unfold simpleHTMLData.
  match goal with |- context [html_rows _ _ ?d] =>
    destruct (html_rows_ok onlyAlive results d) as (d' & H1 & H2);
    destruct (html_rows_counts onlyAlive results d d') as (Ht & Ha & _);
    [simpl; lia | simpl; lia | exact H1 |] end.
  rewrite H1. cbn [bind]. eexists. split; [reflexivity|].
  cbn [TotalDomains AliveDomains DeadDomains Results] in *.
  pose proof (counts_split (kept onlyAlive results)) as Hsplit.
  pose proof (kept_length onlyAlive results) as Hk.
  assert (Hal : (0 <= aliveCount (kept onlyAlive results))%Z)
    by (unfold aliveCount; lia).
  assert (Hde : (0 <= deadCount (kept onlyAlive results))%Z)
    by (unfold deadCount; lia).
  rewrite int64_small by (unfold MaxInt in *; lia).
  cbn [app] in H2. rewrite Ht, Ha, H2, length_map. repeat split; lia.
Qed.

(** X15. For the HTML writer, setting [onlyAlive] is the same as handing it
    the alive results alone: the same data for the template, the same
    returned error and the same file. *)
Theorem html_filter_is_prefilter results filename :
  simpleHTMLData results true = simpleHTMLData (filter Alive results) false /\
  SaveResultsToSimpleHTML results filename true =
  SaveResultsToSimpleHTML (filter Alive results) filename false.
Proof.
  assert (H : simpleHTMLData results true =
              simpleHTMLData (filter Alive results) false)
    by (unfold simpleHTMLData; rewrite html_rows_prefiltered; reflexivity).
  split; [exact H|]. unfold SaveResultsToSimpleHTML. rewrite H. reflexivity.
Qed.


(** X17. Both writers copy the kept results into their entries in input
    order: domain, status text, status code, message and aliveness are
    taken over as they are, the link is the domain's link, and the page
    type is the result's, or the writer's default when there is none. *)
Theorem entries_follow_kept_results results onlyAlive :
  (exists st,
     excelLoop results onlyAlive = Ok st /\
     map (fun e => (tr_Domain e, tr_StatusText e, tr_Status e, tr_Message e,
                    tr_Alive e, tr_DomainLink e, tr_PageType e))
         (Results (xl_data st)) =
     map (fun r => (Domain r, StatusText r, Status r, Message r, Alive r,
                    domainLinkOf (Domain r), shownPageType "" r))
         (kept onlyAlive results)) /\
  (exists data,
     simpleHTMLData results onlyAlive = Ok data /\
     map (fun e => (tr_Domain e, tr_StatusText e, tr_Status e, tr_Message e,
                    tr_Alive e, tr_DomainLink e, tr_PageType e))
         (Results data) =
     map (fun r => (Domain r, StatusText r, Status r, Message r, Alive r,
                    domainLinkOf (Domain r), shownPageType "-" r))
         (kept onlyAlive results)).
Proof.
  split.
  - destruct (excelLoop_ok results onlyAlive) as (st & H1 & H2 & _).
    exists st. split; [exact H1|]. rewrite H2, map_map. reflexivity.
  - destruct (simpleHTMLData_ok results onlyAlive) as (data & H1 & H2).
    exists data. split; [exact H1|]. rewrite H2, map_map. reflexivity.
Qed.

(** *** Screenshots in the entries *)

Lemma excelScreenshot_cases result :
  excelScreenshot result = "" \/
  HasPrefix (excelScreenshot result) "screenshots/" = true.
Proof.
  unfold excelScreenshot.
  destruct (nonempty (Screenshot result)); [|left; reflexivity].
  destruct (HasPrefix (ReplaceAll _ _ _) "screenshots/") eqn:Hp; cbn [negb];
    right; [exact Hp|].
  unfold HasPrefix. simpl.
  match goal with |- prefix _ ?x = true => destruct x; reflexivity end.
Qed.

Lemma screenshotToDataURI_cases path :
  screenshotToDataURI path = "" \/
  HasPrefix (screenshotToDataURI path) "data:image/" = true.
Proof.
  assert (Hshape : forall ext encoded,
            HasPrefix ("data:" ++ mimeTypeOf ext ++ ";base64," ++ encoded)
              "data:image/" = true).
  { intros ext encoded. unfold mimeTypeOf.
    destruct (ext =? ".png"), (ext =? ".gif"), (ext =? ".webp"); reflexivity. }
  unfold screenshotToDataURI.
  destruct (nonempty path); [|left; reflexivity]. cbn [negb].
  destruct (os_ReadFile path) as [data|];
    [|destruct (os_ReadFile (filepath_Join "." path)) as [data|];
      [|left; reflexivity]];
    right; apply Hshape.
Qed.

(** X7. In the data of the spreadsheet writer the screenshot of an entry is
    empty or a path under [screenshots/]; in the data of the HTML writer it
    is empty or a [data:image/] URI, never a bare path. *)
Theorem entry_screenshots results onlyAlive :
  (exists st,
     excelLoop results onlyAlive = Ok st /\
     Forall (fun e => tr_Screenshot e = "" \/
                      HasPrefix (tr_Screenshot e) "screenshots/" = true)
       (Results (xl_data st))) /\
  (exists data,
     simpleHTMLData results onlyAlive = Ok data /\
     Forall (fun e => tr_Screenshot e = "" \/
                      HasPrefix (tr_Screenshot e) "data:image/" = true)
       (Results data)).
Proof.
  split.
  - destruct (excelLoop_ok results onlyAlive) as (st & H1 & H2 & _).
    exists st. split; [exact H1|]. rewrite H2. apply Forall_map.
    apply Forall_forall. intros r _. apply excelScreenshot_cases.
  - destruct (simpleHTMLData_ok results onlyAlive) as (data & H1 & H2).
    exists data. split; [exact H1|]. rewrite H2. apply Forall_map.
    apply Forall_forall. intros r _. cbn [htmlEntry tr_Screenshot].
    destruct (nonempty (Screenshot r)); [|left; reflexivity].
    apply screenshotToDataURI_cases.
Qed.

End WithPlatformMore.

Lemma csv_line_commas_witness :
  os_Create (Platform := Sample.bare) "out.csv" = None /\
  exists lines,
    SaveResultsToFile (P := Sample.bare)
      [Sample.up "a.example"; Sample.down "b.example"] "out.csv" =
      Ok (None, Some (csv_header :: lines)) /\
    count_byte "," csv_header = 6%nat /\
    Forall2
      (fun result line =>
         count_byte "," line =
           (6 + count_byte "," (Domain result) +
            count_byte "," (StatusText result) +
            count_byte "," (shownPageType "" result))%nat)
      [Sample.up "a.example"; Sample.down "b.example"] lines.
Proof.
  assert (H : os_Create (Platform := Sample.bare) "out.csv" = None) by reflexivity.
  split; [exact H|].
  exact (csv_line_commas (P := Sample.bare)
           [Sample.up "a.example"; Sample.down "b.example"] "out.csv" H).
Defined.


Lemma excel_rows_are_consecutive_witness :
  (Z.of_nat (List.length [Sample.up "a.example"; Sample.down "b.example";
                          Sample.up "c.example"]) + 2 <= MaxInt)%Z /\
  exists st,
    excelLoop (P := Sample.bare)
      [Sample.up "a.example"; Sample.down "b.example"; Sample.up "c.example"]
      true = Ok st /\
    xl_row st =
      (2 + Z.of_nat (List.length
             (kept true [Sample.up "a.example"; Sample.down "b.example";
                         Sample.up "c.example"])))%Z /\
    xl_screenshotRow st = xl_row st /\
    xl_f st =
      (xl_f (excel_prologue (P := Sample.bare)
               [Sample.up "a.example"; Sample.down "b.example";
                Sample.up "c.example"]) ++
       excelCallsFrom (P := Sample.bare) 2
         (kept true [Sample.up "a.example"; Sample.down "b.example";
                     Sample.up "c.example"]))%list /\
    xl_stdout st =
      excelPrintsFrom (P := Sample.bare) 2
        (kept true [Sample.up "a.example"; Sample.down "b.example";
                    Sample.up "c.example"]).
Proof.
  assert (H : (Z.of_nat (List.length [Sample.up "a.example";
                 Sample.down "b.example"; Sample.up "c.example"]) + 2
               <= MaxInt)%Z) by (vm_compute; discriminate).
  split; [exact H|].
  exact (excel_rows_are_consecutive (P := Sample.bare)
           [Sample.up "a.example"; Sample.down "b.example"; Sample.up "c.example"]
           true H).
Defined.

(** With the dead result filtered out, the third result is on row 3. *)
Example third_result_on_row_three :
  exists st,
    excelLoop (P := Sample.bare)
      [Sample.up "a.example"; Sample.down "b.example"; Sample.up "c.example"]
      true = Ok st /\
    In (SetCellValue sheetName "A3" (VString "c.example")) (xl_f st) /\
    xl_row st = 4%Z.
Proof. eexists. split; [reflexivity|]. split; [simpl; tauto | reflexivity]. Qed.

Lemma excel_tallies_witness :
  (Z.of_nat (List.length [Sample.up "a.example"; Sample.down "b.example"])
     <= MaxInt)%Z /\
  exists st,
    excelLoop (P := Sample.bare)
      [Sample.up "a.example"; Sample.down "b.example"] true = Ok st /\
    AliveDomains (xl_data st) =
      aliveCount (kept true [Sample.up "a.example"; Sample.down "b.example"]) /\
    DeadDomains (xl_data st) =
      deadCount (kept true [Sample.up "a.example"; Sample.down "b.example"]) /\
    (AliveDomains (xl_data st) + DeadDomains (xl_data st))%Z =
      Z.of_nat (List.length (Results (xl_data st))) /\
    (true = true ->
     DeadDomains (xl_data st) = 0%Z /\
     Forall (fun entry => tr_Alive entry = true) (Results (xl_data st))).
Proof.
  assert (H : (Z.of_nat (List.length [Sample.up "a.example";
                 Sample.down "b.example"]) <= MaxInt)%Z)
    by (vm_compute; discriminate).
  split; [exact H|].
  exact (excel_tallies (P := Sample.bare)
           [Sample.up "a.example"; Sample.down "b.example"] true H).
Defined.

Lemma html_counts_witness :
  (Z.of_nat (List.length [Sample.up "a.example"; Sample.down "b.example"])
     <= MaxInt)%Z /\
  exists data,
    simpleHTMLData (P := Sample.bare)
      [Sample.up "a.example"; Sample.down "b.example"] false = Ok data /\
    TotalDomains data = Z.of_nat (List.length (Results data)) /\
    AliveDomains data =
      aliveCount (kept false [Sample.up "a.example"; Sample.down "b.example"]) /\
    DeadDomains data =
      deadCount (kept false [Sample.up "a.example"; Sample.down "b.example"]) /\
    TotalDomains data = (AliveDomains data + DeadDomains data)%Z.
Proof.
  assert (H : (Z.of_nat (List.length [Sample.up "a.example";
                 Sample.down "b.example"]) <= MaxInt)%Z)
    by (vm_compute; discriminate).
  split; [exact H|].
  exact (html_counts (P := Sample.bare)
           [Sample.up "a.example"; Sample.down "b.example"] false H).
Defined.


End ViewMore.

(** ** The summary *)

Module SummaryFacts.
Import view summary.

Local Open Scope string_scope.

Lemma each_prints {A : Type} (line : A -> string) (body : A -> io unit)
    (l : list A) :
  (forall a log, body a log = ((log ++ [Print (line a)])%list, Ok tt)) ->
  forall log,
    each body l log = ((log ++ map (fun a => Print (line a)) l)%list, Ok tt).
Proof.
  intros Hbody. induction l as [|a rest IH]; intros log; simpl.
  - unfold pure. rewrite app_nil_r. reflexivity.
  - unfold seq. rewrite Hbody, IH, <- app_assoc. reflexivity.
Qed.

Section WithFormat.
Variable seconds_2f : Z -> string.

(** X18. With a configuration and a mutex at hand [PrintSummary] returns,
    and it touches the mutex only to bracket the page type lines: after
    three lines of heading and totals come, if page info was extracted and
    the tally is not empty, the statistics heading, [Lock], one line for
    each entry of the tally and [Unlock]; what follows, the screenshot
    count if screenshots were asked for and the elapsed time, is printed
    with the mutex released. *)
Theorem summary_locks_around_type_lines total alive dead cfg pageTypeCount
    screenshotCount totalTime :
  exists head tail,
    PrintSummary seconds_2f total alive dead (Some cfg) pageTypeCount (Some tt)
      screenshotCount totalTime =
    ((head ++
      (if shows_types cfg pageTypeCount
       then [Print ("页面类型统计:" ++ nl); Lock] ++
            map (fun entry => Print (typeLine entry)) pageTypeCount ++ [Unlock]
       else []) ++
      tail)%list, Ok tt) /\
    List.length head = 3%nat /\
    List.length tail = (if shows_screenshots cfg then 2 else 1)%nat /\
    Forall (fun e => is_print e = true) head /\
    Forall (fun e => is_print e = true) tail.
Proof.
  exists (headLines total alive dead), (tailLines seconds_2f cfg screenshotCount totalTime).
  split; [|split; [reflexivity|]; split; [|split]].
  - unfold PrintSummary, shows_types, headLines, tailLines, seq, load, emit. simpl.
    destruct (config.ExtractInfo cfg && Nat.ltb 0 (List.length pageTypeCount)).
    + unfold seq, load, emit. simpl.
      rewrite (each_prints typeLine) by reflexivity.
      destruct (config.Screenshot cfg || config.ScreenshotAlive cfg);
        [destruct (config.ScreenshotAlive cfg)|];
        unfold pure; simpl; rewrite <- !app_assoc; reflexivity.
    + destruct (config.Screenshot cfg || config.ScreenshotAlive cfg);
        [destruct (config.ScreenshotAlive cfg)|];
        unfold pure; reflexivity.
  - unfold tailLines, shows_screenshots.
    destruct (config.Screenshot cfg || config.ScreenshotAlive cfg); reflexivity.
  - repeat constructor.
  - unfold tailLines.
    destruct (config.Screenshot cfg || config.ScreenshotAlive cfg);
      repeat constructor.
Qed.

(** X19. [PrintSummary] panics in two cases only: when the configuration is
    nil, and when the mutex is nil while the page type statistics are to be
    shown. A nil mutex is harmless otherwise, and a panic comes before any
    call on the mutex: what was done up to it are prints. *)
Theorem summary_panics_iff total alive dead cfg pageTypeCount mutex
    screenshotCount totalTime :
  ((exists msg,
      snd (PrintSummary seconds_2f total alive dead cfg pageTypeCount mutex
             screenshotCount totalTime) = Panic msg) <->
   cfg = None \/
   (exists c, cfg = Some c /\ shows_types c pageTypeCount = true /\ mutex = None)) /\
  ((exists msg,
      snd (PrintSummary seconds_2f total alive dead cfg pageTypeCount mutex
             screenshotCount totalTime) = Panic msg) ->
   Forall (fun e => is_print e = true)
     (fst (PrintSummary seconds_2f total alive dead cfg pageTypeCount mutex
             screenshotCount totalTime))).
Proof.
  destruct cfg as [c|].
  2:{ split; [|intros _; repeat constructor].
      split; [intros _; left; reflexivity | intros _; eexists; reflexivity]. }
  destruct mutex as [[]|].
  - destruct (summary_locks_around_type_lines total alive dead c pageTypeCount
                screenshotCount totalTime) as (head & tail & Heq & _).
    rewrite Heq. simpl. split.
    + split; [intros [msg H]; discriminate|].
      intros [H|(c' & _ & _ & H)]; discriminate.
    + intros [msg H]; discriminate.
  - unfold PrintSummary, shows_types, seq, load, emit. simpl.
    destruct (config.ExtractInfo c && Nat.ltb 0 (List.length pageTypeCount)) eqn:Hs.
    + unfold seq, load, emit. simpl. split; [|intros _; repeat constructor].
      split; [|intros _; eexists; reflexivity].
      intros _. right. exists c. auto.
    + assert (Hok : forall T (x : list effect * fault T) msg,
                snd x = Panic msg -> (exists t, snd x = Ok t) -> False)
        by (intros T x msg H1 [t H2]; congruence).
      destruct (config.Screenshot c || config.ScreenshotAlive c);
        [destruct (config.ScreenshotAlive c)|]; unfold pure; simpl;
        (split; [split; [intros [msg H]; discriminate|]|intros [msg H]; discriminate]);
        intros [H|(c' & Hc & Ht & _)]; try discriminate;
        injection Hc as <-; rewrite Hs in Ht; discriminate.
Qed.

End WithFormat.

Example summary_of_a_run :
  PrintSummary (fun _ => "1.50") 3 2 1
    (Some {| config.ExtractInfo := true; config.Screenshot := true;
             config.ScreenshotAlive := false |})
    [("login", 2%Z)] (Some tt) 1 1500000000 =
  ([Print (nl ++ "检测结果 (总结):" ++ nl);
    Print ("----------------------------------------" ++ nl);
    Print ("总计: 3 个域名, 2 个存活, 1 个无法访问" ++ nl);
    Print ("页面类型统计:" ++ nl); Lock;
    Print ("  login: 2 个" ++ nl); Unlock;
    Print ("成功截图: 1 个" ++ nl);
    Print ("检测耗时: 1.50 秒" ++ nl)], Ok tt).
Proof. reflexivity. Qed.

End SummaryFacts.

(** ** When the reporter stops *)

Module ProgressExact.
Import Progress ProgressFacts.

Lemma undisturbed_app total p1 : forall p2 w,
  undisturbed total (p1 ++ p2) w =
  undisturbed total p1 w && undisturbed total p2 (run total p1 w).
Proof.
  induction p1 as [|ev p1 IH]; intros p2 w; [reflexivity|].
  simpl. rewrite IH, andb_assoc. reflexivity.
Qed.

(** C2, as stated, fails for a total beyond the counter's range: with
    2^32 domains and a counter of 0 a tick is no terminating event (the
    counter has not reached the total and no stop signal was received), and
    yet the goroutine has returned after it. *)
Lemma reporter_stops_before_either_event :
  terminating (2 ^ 32) (ShowProgress 0) TickerC = false /\
  undisturbed (2 ^ 32) [TickerC] (ShowProgress 0) = true /\
  running (reporter (run (2 ^ 32) [TickerC] (ShowProgress 0))) = false.
Proof. repeat split. Qed.

(** C2, for a total that fits the counter. The goroutine started by
    [ShowProgress] stops exactly at the first terminating event, the stop
    signal or a tick that finds the counter at the total, whichever comes
    first: before it, after every prefix of the trace, the goroutine is
    running, and it has printed one line for each tick; at it the goroutine
    returns; and neither that event nor anything after it prints. *)
Theorem reporter_stops_exactly_at_first_terminating_event total c0 pre ev post :
  0 <= total < 2 ^ 31 -> in_int32 c0 ->
  undisturbed total pre (ShowProgress c0) = true ->
  terminating total (run total pre (ShowProgress c0)) ev = true ->
  (forall p1 p2, pre = p1 ++ p2 ->
     running (reporter (run total p1 (ShowProgress c0))) = true) /\
  printed (run total pre (ShowProgress c0)) = lines_of total pre c0 /\
  running (reporter (run total (pre ++ [ev]) (ShowProgress c0))) = false /\
  printed (run total (pre ++ ev :: post) (ShowProgress c0)) = lines_of total pre c0.
Proof.
  intros Ht Hc Hund Hterm.
  assert (Ht32 : in_int32 total) by (unfold in_int32; lia).
  assert (Hpre : printed (run total pre (ShowProgress c0)) = lines_of total pre c0).
  { destruct (reporter_runs_until_then total pre (ShowProgress c0) Ht32 Hc eq_refl Hund)
      as [_ Hprint]. rewrite Hprint. reflexivity. }
  destruct (reporter_stops_at_terminating_event total (ShowProgress c0) pre ev post
              (proj1 Ht) Hc Hterm) as [Hstop Hafter].
  split; [|split; [exact Hpre | split; [exact Hstop|]]].
  - intros p1 p2 ->. rewrite undisturbed_app in Hund.
    apply andb_true_iff in Hund as [Hund1 _].
    apply (reporter_runs_until_then total p1 (ShowProgress c0) Ht32 Hc eq_refl Hund1).
  - rewrite Hafter. exact Hpre.
Qed.

Lemma reporter_stops_exactly_at_first_terminating_event_witness :
  0 <= 2 < 2 ^ 31 /\ in_int32 0 /\
  undisturbed 2 [TickerC; AtomicAddInt32 1; TickerC; AtomicAddInt32 1]
    (ShowProgress 0) = true /\
  terminating 2
    (run 2 [TickerC; AtomicAddInt32 1; TickerC; AtomicAddInt32 1] (ShowProgress 0))
    TickerC = true /\
  (forall p1 p2,
     [TickerC; AtomicAddInt32 1; TickerC; AtomicAddInt32 1] = p1 ++ p2 ->
     running (reporter (run 2 p1 (ShowProgress 0))) = true) /\
  printed (run 2 [TickerC; AtomicAddInt32 1; TickerC; AtomicAddInt32 1]
             (ShowProgress 0)) =
    lines_of 2 [TickerC; AtomicAddInt32 1; TickerC; AtomicAddInt32 1] 0 /\
  running (reporter (run 2
    ([TickerC; AtomicAddInt32 1; TickerC; AtomicAddInt32 1] ++ [TickerC])
    (ShowProgress 0))) = false /\
  printed (run 2
    ([TickerC; AtomicAddInt32 1; TickerC; AtomicAddInt32 1] ++
     TickerC :: [TickerC; DoneChan]) (ShowProgress 0)) =
    lines_of 2 [TickerC; AtomicAddInt32 1; TickerC; AtomicAddInt32 1] 0.
Proof.
  assert (H0 : 0 <= 2 < 2 ^ 31) by (split; [lia | reflexivity]).
  assert (H1 : in_int32 0) by (unfold in_int32; simpl; lia).
  assert (H2 : undisturbed 2 [TickerC; AtomicAddInt32 1; TickerC; AtomicAddInt32 1]
                 (ShowProgress 0) = true) by reflexivity.
  assert (H3 : terminating 2
    (run 2 [TickerC; AtomicAddInt32 1; TickerC; AtomicAddInt32 1] (ShowProgress 0))
    TickerC = true) by reflexivity.
  split; [exact H0|]. split; [exact H1|]. split; [exact H2|]. split; [exact H3|].
  exact (reporter_stops_exactly_at_first_terminating_event 2 0
           [TickerC; AtomicAddInt32 1; TickerC; AtomicAddInt32 1] TickerC
           [TickerC; DoneChan] H0 H1 H2 H3).
Defined.

(** Two lines, for the counters 0 and 1, and none for the tick that finds
    the counter at 2. *)
Example two_lines_then_stop :
  printed (run 2
    [TickerC; AtomicAddInt32 1; TickerC; AtomicAddInt32 1; TickerC; TickerC; DoneChan]
    (ShowProgress 0)) = [Printf 0 2; Printf 1 2].
Proof. reflexivity. Qed.

End ProgressExact.

(** ** The page type in the writers' output *)

Module ViewRendering.
Import checker view ViewFacts ViewMore.

Local Open Scope string_scope.

Lemma pageTypeColumn_app calls1 calls2 :
  pageTypeColumn (calls1 ++ calls2) =
  (pageTypeColumn calls1 ++ pageTypeColumn calls2)%list.
Proof. apply flat_map_app. Qed.

Section WithPlatformRendering.
Context {P : Platform}.

(** Before the data loop column [E] holds its header. *)
Lemma pageTypeColumn_prologue results :
  pageTypeColumn (xl_f (excel_prologue results)) = [("E1", VString "页面类型")].
Proof. reflexivity. Qed.

(** A row sets one cell of column [E], to its page type. *)
Lemma pageTypeColumn_row row screenshotRow pageType result :
  pageTypeColumn (fst (excelCalls row screenshotRow pageType result)) =
  [(cell "E" row, VString pageType)].
Proof.
  unfold excelCalls.
  destruct (nonempty (Screenshot result)), (os_Stat (Screenshot result));
    reflexivity.
Qed.

Lemma pageTypeColumn_rows results : forall row,
  List.length (pageTypeColumn (excelCallsFrom row results)) = List.length results /\
  forall i result,
    nth_error results i = Some result ->
    nth_error (pageTypeColumn (excelCallsFrom row results)) i =
    Some (cell "E" (row + Z.of_nat i), VString (shownPageType "" result)).
Proof.
  induction results as [|r rest IH]; intros row.
  - split; [reflexivity|]. intros [|i] result H; discriminate.
  - cbn [excelCallsFrom]. rewrite pageTypeColumn_app, pageTypeColumn_row.
    destruct (IH (row + 1)%Z) as [Hlen Hnth]. split.
    + simpl. rewrite Hlen. reflexivity.
    + intros [|i] result H.
      * injection H as <-. cbn [nth_error app Z.of_nat].
        rewrite Z.add_0_r. reflexivity.
      * cbn [nth_error app]. simpl in H. rewrite (Hnth i result H).
        do 3 f_equal. lia.
Qed.

(** The column widths, the panes, [SaveAs] and [Close] leave column [E]
    alone. *)
Lemma pageTypeColumn_epilogue filename st :
  pageTypeColumn (xl_f (snd (excel_epilogue filename st))) =
  pageTypeColumn (xl_f st).
Proof.
  unfold excel_epilogue. cbn [snd xl_f]. rewrite pageTypeColumn_app.
  apply app_nil_r.
Qed.

(** C7. No writer faults, whatever the results hold, and each shows the
    page type of every row it writes, which for a result with a nil
    [PageInfo] is the empty string in the CSV line that
    [SaveResultsToFile] writes, the empty string in the cell of column [E]
    that [SaveResultsToExcel] sets on the row's line and in the row's
    entry, and [-] in the entry of the data that [SaveResultsToSimpleHTML]
    executes the template on. *)
Theorem absent_page_info_is_rendered results filename onlyAlive :
  (Z.of_nat (List.length results) + 2 <= MaxInt)%Z ->
  (exists out,
     SaveResultsToFile results filename = Ok out /\
     match os_Create filename with
     | Some err => out = (Some err, None)
     | None =>
         exists lines,
           out = (None, Some (csv_header :: lines)) /\
           Forall2
             (fun result line =>
                line =
                  Domain result ++ "," ++ StatusText result ++ "," ++
                  itoa (Status result) ++ "," ++
                  fmt_2f (Milliseconds (ResponseTime result)) ++ "," ++
                  match PageInfo result with
                  | Some pi => pi_Type pi
                  | None => ""
                  end ++ "," ++
                  ReplaceAll (Title result) "," " " ++ "," ++
                  ReplaceAll (Message result) "," " " ++ nl)
             results lines
     end) /\
  (exists out,
     SaveResultsToExcel results filename onlyAlive = Ok out /\
     match
       (if nonempty (filepath_Dir filename) && negb (filepath_Dir filename =? ".")
        then os_MkdirAll (filepath_Dir filename) else None)
     with
     | Some err => out = (Some ("创建输出目录失败: " ++ err), None)
     | None =>
         exists st,
           out = (excelize_SaveAs filename, Some st) /\
           List.length (pageTypeColumn (xl_f st)) =
             S (List.length (kept onlyAlive results)) /\
           nth_error (pageTypeColumn (xl_f st)) 0 =
             Some ("E1", VString "页面类型") /\
           (forall i result,
              nth_error (kept onlyAlive results) i = Some result ->
              nth_error (pageTypeColumn (xl_f st)) (S i) =
              Some (cell "E" (2 + Z.of_nat i),
                    VString match PageInfo result with
                            | Some pi => pi_Type pi
                            | None => ""
                            end)) /\
           map tr_PageType (Results (xl_data st)) =
             map (fun result =>
                    match PageInfo result with
                    | Some pi => pi_Type pi
                    | None => ""
                    end)
                 (kept onlyAlive results)
     end) /\
  (exists out data,
     SaveResultsToSimpleHTML results filename onlyAlive = Ok out /\
     simpleHTMLData results onlyAlive = Ok data /\
     map tr_PageType (Results data) =
       map (fun result =>
              match PageInfo result with
              | Some pi => pi_Type pi
              | None => "-"
              end)
           (kept onlyAlive results) /\
     match os_Create filename with
     | Some err => out = (Some err, None)
     | None =>
         match template_ParseFiles "view/template.html" with
         | Some err => out = (Some ("解析模板文件失败: " ++ err), Some [BOM])
         | None => snd out = Some [BOM; fst (template_Execute data)]
         end
     end).
Proof.
  intros Hlen. split; [|split].
  - unfold SaveResultsToFile. destruct (os_Create filename) as [err|].
    + eexists. split; reflexivity.
    + rewrite csv_rows_ok. cbn [bind app]. eexists. split; [reflexivity|].
      eexists. split; [reflexivity|].
      clear Hlen. induction results as [|result rest IH]; simpl;
        constructor; [reflexivity | exact IH].
  - unfold SaveResultsToExcel.
    destruct (excelLoop_ok results onlyAlive) as (st & Hloop & Hres & _).
    rewrite Hloop. cbn [bind].
    destruct (if nonempty (filepath_Dir filename) && negb (filepath_Dir filename =? ".")
              then os_MkdirAll (filepath_Dir filename) else None) as [err|].
    + eexists. split; reflexivity.
    + eexists. split; [reflexivity|].
      exists (snd (excel_epilogue filename st)). split; [reflexivity|].
      rewrite pageTypeColumn_epilogue.
      assert (Hcalls : xl_f st =
                (xl_f (excel_prologue results) ++
                 excelCallsFrom 2 (kept onlyAlive results))%list).
      { unfold excelLoop in Hloop.
        destruct (excel_rows_layout onlyAlive results (excel_prologue results))
          as (st' & H1 & _ & _ & H4 & _);
          [reflexivity | simpl; lia | cbn [xl_row excel_prologue]; lia |].
        rewrite Hloop in H1. injection H1 as <-. exact H4. }
      rewrite Hcalls, pageTypeColumn_app, pageTypeColumn_prologue.
      destruct (pageTypeColumn_rows (kept onlyAlive results) 2) as [Hn Hnth].
      cbn [app List.length nth_error]. rewrite Hn.
      split; [reflexivity|]. split; [reflexivity|]. split.
      * intros i result Hi. rewrite (Hnth i result Hi). reflexivity.
      * unfold excel_epilogue. cbn [snd xl_data]. rewrite Hres, map_map.
        reflexivity.
  - unfold SaveResultsToSimpleHTML.
    destruct (simpleHTMLData_ok results onlyAlive) as (data & Hdata & Hres).
    rewrite Hdata. cbn [bind].
    assert (Hmap : map tr_PageType (Results data) =
              map (fun result =>
                     match PageInfo result with
                     | Some pi => pi_Type pi
                     | None => "-"
                     end) (kept onlyAlive results))
      by (rewrite Hres, map_map; reflexivity).
    destruct (os_Create filename) as [err|].
    + eexists. exists data. repeat split; auto.
    + destruct (template_ParseFiles "view/template.html") as [err|].
      * eexists. exists data. repeat split; auto.
      * destruct (snd (template_Execute data));
          eexists; exists data; repeat split; auto.
Qed.

End WithPlatformRendering.

Lemma absent_page_info_is_rendered_witness :
  (Z.of_nat (List.length [Sample.up "a.example"; Sample.down "b.example"]) + 2 <= MaxInt)%Z /\
  (exists out,
     SaveResultsToFile (P := Sample.bare) [Sample.up "a.example"; Sample.down "b.example"] "out" = Ok out /\
     match os_Create (Platform := Sample.bare) "out" with
     | Some err => out = (Some err, None)
     | None =>
         exists lines,
           out = (None, Some (csv_header :: lines)) /\
           Forall2
             (fun result line =>
                line =
                  Domain result ++ "," ++ StatusText result ++ "," ++
                  itoa (Status result) ++ "," ++
                  fmt_2f (Milliseconds (ResponseTime result)) ++ "," ++
                  match PageInfo result with
                  | Some pi => pi_Type pi
                  | None => ""
                  end ++ "," ++
                  ReplaceAll (Title result) "," " " ++ "," ++
                  ReplaceAll (Message result) "," " " ++ nl)
             [Sample.up "a.example"; Sample.down "b.example"] lines
     end) /\
  (exists out,
     SaveResultsToExcel (P := Sample.bare) [Sample.up "a.example"; Sample.down "b.example"] "out" false = Ok out /\
     match
       (if nonempty (filepath_Dir (Platform := Sample.bare) "out") && negb (filepath_Dir (Platform := Sample.bare) "out" =? ".")
        then os_MkdirAll (Platform := Sample.bare) (filepath_Dir (Platform := Sample.bare) "out") else None)
     with
     | Some err => out = (Some ("创建输出目录失败: " ++ err), None)
     | None =>
         exists st,
           out = (excelize_SaveAs (Platform := Sample.bare) "out", Some st) /\
           List.length (pageTypeColumn (xl_f st)) =
             S (List.length (kept false [Sample.up "a.example"; Sample.down "b.example"])) /\
           nth_error (pageTypeColumn (xl_f st)) 0 =
             Some ("E1", VString "页面类型") /\
           (forall i result,
              nth_error (kept false [Sample.up "a.example"; Sample.down "b.example"]) i = Some result ->
              nth_error (pageTypeColumn (xl_f st)) (S i) =
              Some (cell "E" (2 + Z.of_nat i),
                    VString match PageInfo result with
                            | Some pi => pi_Type pi
                            | None => ""
                            end)) /\
           map tr_PageType (Results (xl_data st)) =
             map (fun result =>
                    match PageInfo result with
                    | Some pi => pi_Type pi
                    | None => ""
                    end)
                 (kept false [Sample.up "a.example"; Sample.down "b.example"])
     end) /\
  (exists out data,
     SaveResultsToSimpleHTML (P := Sample.bare) [Sample.up "a.example"; Sample.down "b.example"] "out" false = Ok out /\
     simpleHTMLData (P := Sample.bare) [Sample.up "a.example"; Sample.down "b.example"] false = Ok data /\
     map tr_PageType (Results data) =
       map (fun result =>
              match PageInfo result with
              | Some pi => pi_Type pi
              | None => "-"
              end)
           (kept false [Sample.up "a.example"; Sample.down "b.example"]) /\
     match os_Create (Platform := Sample.bare) "out" with
     | Some err => out = (Some err, None)
     | None =>
         match template_ParseFiles (Platform := Sample.bare) "view/template.html" with
         | Some err => out = (Some ("解析模板文件失败: " ++ err), Some [BOM])
         | None => snd out = Some [BOM; fst (template_Execute (Platform := Sample.bare) data)]
         end
     end).
Proof.
  assert (H : (Z.of_nat (List.length [Sample.up "a.example"; Sample.down "b.example"]) + 2 <= MaxInt)%Z) by (vm_compute; discriminate).
  split; [exact H|].
  exact (absent_page_info_is_rendered (P := Sample.bare) [Sample.up "a.example"; Sample.down "b.example"] "out" false H).
Defined.

(** The dead result of the sample has no page info: its CSV line has an
    empty fifth field, its row sets cell [E3] to the empty string, and its
    HTML entry has the page type [-]. *)
Example absent_page_info_in_the_output :
  SaveResultsToFile (P := Sample.bare) [Sample.up "a.example"; Sample.down "b.example"] "out" =
    Ok (None,
        Some [csv_header;
              "a.example,OK,200,12.00,login,Hi  there," ++ nl;
              "b.example,dead,0,0.00,,,dial tcp: timeout  retry" ++ nl]) /\
  (exists st err,
     SaveResultsToExcel (P := Sample.bare) [Sample.up "a.example"; Sample.down "b.example"] "out" false = Ok (err, Some st) /\
     pageTypeColumn (xl_f st) =
       [("E1", VString "页面类型"); ("E2", VString "login"); ("E3", VString "")]) /\
  (exists data,
     simpleHTMLData (P := Sample.bare) [Sample.up "a.example"; Sample.down "b.example"] false = Ok data /\
     map tr_PageType (Results data) = ["login"; "-"]).
Proof.
  split; [reflexivity|]. split.
  - eexists. eexists. split; reflexivity.
  - eexists. split; reflexivity.
Qed.

End ViewRendering.
